(** * sshlib proxy dialers: a shallow embedding of proxy.go

    The Go package builds dialers that reach a destination through an
    HTTP CONNECT proxy, a SOCKS5 proxy or the standard streams of a spawned
    command, and wraps them in [ContextDialer], which adds cancellation.

    Go values are embedded as follows.
    - An interface or pointer value that may be nil is an [option].
    - A multi-value return [(net.Conn, error)] is a pair of options: Go
      lets both be non-nil at once and the code relies on that freedom.
    - A call may return, panic (nil dereference) or block for ever: the
      three constructors of [Outcome].
    - Effects on sockets, pipes and processes are appended to the [log] of
      the [World]; mutable [NetPipe] objects live in its heap.
    - The Go scheduler's choices for a [select] race are the [Schedule] of
      the [World]. *)

From Stdlib Require Import String Ascii List ZArith Lia Bool DecimalString.
From Stdlib Require DecimalPos DecimalZ.
Import ListNotations.
Local Open Scope string_scope.

(** ** Go runtime values *)

(** Values of the [error] interface that the package returns or relays. *)
Inductive error : Type :=
| Canceled                    (* context.Canceled *)
| DeadlineExceeded            (* context.DeadlineExceeded *)
| Errorf (msg : string)       (* fmt.Errorf / errors.New *)
| Foreign (code : nat).       (* an error produced by a library or the OS *)

(** A [net.Conn] handle. *)
Definition Conn := nat.

(** The pair returned by every dial operation. *)
Definition DialResult := (option Conn * option error)%type.

Inductive Outcome (A : Type) : Type :=
| Returns (a : A)
| Panics (reason : string)
| Blocks.
Arguments Returns {A} a.
Arguments Panics {A} reason.
Arguments Blocks {A}.

Definition nil_dereference : string :=
  "invalid memory address or nil pointer dereference".

(** Rendering of an [int] under the verb [%d]. *)
Definition format_d (n : Z) : string := NilZero.string_of_int (Z.to_int n).

Module url.
Record Userinfo := { username : string; password : string; passwordSet : bool }.
Record URL := { Scheme : string; User : option Userinfo; Host : string; Path : string }.
Definition set_Scheme (u : URL) (s : string) : URL :=
    {| Scheme := s; User := User u; Host := Host u; Path := Path u |}.
End url.

Module http.
Record Request := {
    Method : string;
    Target : string;
    Close : bool;
    Header : list (string * string)
  }.
Record Response := { StatusCode : Z; Body : nat }.

Definition set_Close (r : Request) (b : bool) : Request :=
    {| Method := Method r; Target := Target r; Close := b; Header := Header r |}.

  (** [Header.Set]: the value replaces any earlier one for the key. *)
Definition Header_Set (r : Request) (k v : string) : Request :=
    {| Method := Method r; Target := Target r; Close := Close r;
       Header := (k, v) :: filter (fun kv => negb (String.eqb (fst kv) k)) (Header r) |}.
End http.

Module exec.
  (** [exec.Cmd]: [Process] stays nil until [Start] has succeeded. *)
Record Cmd := {
    Args : list string;
    Stdin : option Conn;
    Stdout : option Conn;
    Process : option nat
  }.
Definition Command (name : string) (args : list string) : Cmd :=
    {| Args := name :: args; Stdin := None; Stdout := None; Process := None |}.
Definition set_Stdin (c : Cmd) (f : Conn) : Cmd :=
    {| Args := Args c; Stdin := Some f; Stdout := Stdout c; Process := Process c |}.
Definition set_Stdout (c : Cmd) (f : Conn) : Cmd :=
    {| Args := Args c; Stdin := Stdin c; Stdout := Some f; Process := Process c |}.
Definition set_Process (c : Cmd) (pid : nat) : Cmd :=
    {| Args := Args c; Stdin := Stdin c; Stdout := Stdout c; Process := Some pid |}.
End exec.

(** [NetPipe]: the [ctx] field is never read or written by the package.
    The command's [Stderr], which [Dial] points at the log writer, carries
    no data of the tunnel and is left out of [exec.Cmd]. *)
Module NetPipe.
Record t := { Command : string; Cmd : option exec.Cmd }.
Definition set_Cmd (n : t) (c : exec.Cmd) : t :=
    {| Command := Command n; Cmd := Some c |}.
End NetPipe.

(** ** The world: effects, heap and scheduler *)

(** Constructors registered with [proxy.RegisterDialerType]. *)
Inductive DialerCtor := NewHttpProxy.

Inductive Goroutine :=
| Watcher (n : nat) (srv : Conn).     (* n.Cmd.Wait(); srv.Close() *)

Inductive Event :=
| EvRegister (scheme : string) (f : DialerCtor)
| EvWrite (c : option Conn) (req : http.Request)
| EvRead (c : option Conn)
| EvBodyClose (body : nat)
| EvClose (c : Conn)
| EvPipe (con srv : Conn)
| EvStart (args : list string) (pid : option nat)
| EvExit (pid : nat)
| EvKill (pid : nat)
| EvGo (g : Goroutine).

(** What happens around one [select] statement that races a background
    dial against [ctx.Done()]: the events that precede the evaluation of
    the [select], Go's pseudo-random pick among the cases that are then
    ready, and the events that follow while the [select] is blocked. *)
Inductive RaceEvent :=
| GoDial        (* the background goroutine runs its blocking dial *)
| CtxCancel.    (* ctx.Done() is closed *)

Record Schedule := {
  before_select : list RaceEvent;
  pick : nat;
  while_blocked : list RaceEvent
}.

Record World := {
  log : list Event;             (* newest first *)
  next_conn : nat;              (* next fresh connection handle *)
  netpipes : list NetPipe.t;    (* heap: a *NetPipe is an index *)
  sched : Schedule
}.

Definition M (A : Type) : Type := World -> Outcome A * World.

Definition ret {A} (a : A) : M A := fun w => (Returns a, w).
Definition panic {A} (reason : string) : M A := fun w => (Panics reason, w).
Definition block {A} : M A := fun w => (Blocks, w).
Definition bind {A B} (m : M A) (k : A -> M B) : M B :=
  fun w =>
    match m w with
    | (Returns a, w') => k a w'
    | (Panics r, w') => (Panics r, w')
    | (Blocks, w') => (Blocks, w')
    end.
(** The result of a call into a library or the operating system. *)
Definition call {A} (o : Outcome A) : M A := fun w => (o, w).

Notation "x <- m ;; k" := (bind m (fun x => k))
  (at level 61, m at next level, right associativity).
Notation "' pat <- m ;; k" := (bind m (fun x => match x with pat => k end))
  (at level 61, pat pattern, m at next level, right associativity).
Notation "m ;;; k" := (bind m (fun _ => k))
  (at level 61, right associativity).

Definition emit (e : Event) : M unit :=
  fun w => (Returns tt,
            {| log := e :: log w; next_conn := next_conn w;
               netpipes := netpipes w; sched := sched w |}).

Definition fresh_conn : M Conn :=
  fun w => (Returns (next_conn w),
            {| log := log w; next_conn := S (next_conn w);
               netpipes := netpipes w; sched := sched w |}).

Definition get_sched : M Schedule := fun w => (Returns (sched w), w).

Definition event_eqb_close (c : Conn) (e : Event) : bool :=
  match e with EvClose c' => Nat.eqb c c' | _ => false end.
Definition closed (c : Conn) (w : World) : bool :=
  existsb (event_eqb_close c) (log w).

Definition event_is_end (pid : nat) (e : Event) : bool :=
  match e with
  | EvExit p | EvKill p => Nat.eqb pid p
  | _ => false
  end.
Definition exited (pid : nat) (w : World) : bool :=
  existsb (event_is_end pid) (log w).

(** [c.Close()] on a [net.Conn]: a method call on a nil interface panics. *)
Definition Conn_Close (c : option Conn) : M unit :=
  match c with
  | None => panic nil_dereference
  | Some c => emit (EvClose c)
  end.

(** ** Dialers as interface values *)

(** [context.Context] as the package uses it: whether [Done()] is already
    closed when the call is made, and what [Err()] returns once it is. *)
Record Context := { done : bool; err : error }.

(** A non-nil value of the [proxy.Dialer] interface: its [Dial] method
    and, when its dynamic type has one, its [DialContext] method. *)
Record DialerObj := {
  Dial : string -> string -> M DialResult;
  DialContext : option (Context -> string -> string -> M DialResult)
}.
Definition Dialer := option DialerObj.

(** [d.Dial(network, addr)] through the interface. *)
Definition iface_Dial (d : Dialer) (network addr : string) : M DialResult :=
  match d with
  | None => panic nil_dereference
  | Some o => Dial o network addr
  end.

(** The type assertion [d.(interface{ DialContext(...) })]. *)
Definition assert_DialContext (d : Dialer)
  : option (Context -> string -> string -> M DialResult) :=
  match d with
  | None => None
  | Some o => DialContext o
  end.

(** ** The select race of the cancellable dials

    Both [ContextDialer.DialContext] and [NetPipe.DialContext] start a
    goroutine that runs a blocking dial and sends its result on one of two
    channels of capacity one, then [select] over the two channels and
    [ctx.Done()]. *)

Record Chans := {
  connChan : option (option Conn);
  errChan : option error;
  ctxDone : bool;
  dialed : bool                 (* the goroutine has been run *)
}.

Inductive Case :=
| RecvConn (conn : option Conn)   (* case conn := <-connChan *)
| RecvErr (e : error)             (* case err := <-errChan *)
| RecvDone.                       (* case <-ctx.Done() *)

Definition chans_init (ctx : Context) : Chans :=
  {| connChan := None; errChan := None; ctxDone := done ctx; dialed := false |}.
Definition send_conn (st : Chans) (conn : option Conn) : Chans :=
  {| connChan := Some conn; errChan := errChan st;
     ctxDone := ctxDone st; dialed := dialed st |}.
Definition send_err (st : Chans) (e : error) : Chans :=
  {| connChan := connChan st; errChan := Some e;
     ctxDone := ctxDone st; dialed := dialed st |}.
Definition close_done (st : Chans) : Chans :=
  {| connChan := connChan st; errChan := errChan st;
     ctxDone := true; dialed := dialed st |}.
Definition mark_dialed (st : Chans) : Chans :=
  {| connChan := connChan st; errChan := errChan st;
     ctxDone := ctxDone st; dialed := true |}.

(** The cases of the [select] that can proceed, in source order. *)
Definition ready (st : Chans) : list Case :=
  match connChan st with Some conn => [RecvConn conn] | None => [] end ++
  match errChan st with Some e => [RecvErr e] | None => [] end ++
  (if ctxDone st then [RecvDone] else []).

(** Go chooses uniformly among the ready cases. *)
Definition choose (pick : nat) (cases : list Case) : option Case :=
  nth_error cases (pick mod length cases).
Arguments choose : simpl never.

(** The goroutine's body:
    [conn, err := dial(); if err != nil { errChan <- err; return }; connChan <- conn].
    A dial that blocks for ever sends nothing; a panic in a goroutine
    takes the whole program down. *)
Definition dial_goroutine (dial : M DialResult) (st : Chans) : M Chans :=
  fun w =>
    match dial w with
    | (Returns (conn, Some e), w') => (Returns (send_err st e), w')
    | (Returns (conn, None), w') => (Returns (send_conn st conn), w')
    | (Panics r, w') => (Panics r, w')
    | (Blocks, w') => (Returns st, w')
    end.

Definition race_step (dial : M DialResult) (e : RaceEvent) (st : Chans) : M Chans :=
  match e with
  | GoDial => if dialed st then ret st else dial_goroutine dial (mark_dialed st)
  | CtxCancel => ret (close_done st)
  end.

Fixpoint race_steps (dial : M DialResult) (evs : list RaceEvent) (st : Chans)
  : M Chans :=
  match evs with
  | [] => ret st
  | e :: evs' => st' <- race_step dial e st ;; race_steps dial evs' st'
  end.

(** A blocked [select] is woken by the first event that makes a case
    ready, and takes that case. *)
Fixpoint race_blocked (dial : M DialResult) (handler : Case -> M DialResult)
  (evs : list RaceEvent) (st : Chans) : M DialResult :=
  match evs with
  | [] => block
  | e :: evs' =>
      st' <- race_step dial e st ;;
      match ready st' with
      | [] => race_blocked dial handler evs' st'
      | c :: _ => handler c
      end
  end.

Definition select_race (dial : M DialResult) (handler : Case -> M DialResult)
  (ctx : Context) : M DialResult :=
  s <- get_sched ;;
  st <- race_steps dial (before_select s) (chans_init ctx) ;;
  match choose (pick s) (ready st) with
  | Some c => handler c
  | None => race_blocked dial handler (while_blocked s) st
  end.

(** ** ContextDialer *)

Module ContextDialer.
Record t := { Dialer : Dialer }.
End ContextDialer.

Definition GetDialer (c : ContextDialer.t) : Dialer := ContextDialer.Dialer c.

Definition ContextDialer_Dial (c : ContextDialer.t) (network addr : string)
  : M DialResult :=
  iface_Dial (ContextDialer.Dialer c) network addr.

Definition ContextDialer_select (ctx : Context) (c : Case) : M DialResult :=
  match c with
  | RecvConn conn => ret (conn, None)
  | RecvErr e => ret (None, Some e)
  | RecvDone => ret (None, Some (err ctx))
  end.

Definition ContextDialer_DialContext (c : ContextDialer.t) (ctx : Context)
  (network addr : string) : M DialResult :=
  match assert_DialContext (ContextDialer.Dialer c) with
  | Some dialerCtx => dialerCtx ctx network addr
  | None =>
      select_race (iface_Dial (ContextDialer.Dialer c) network addr)
                  (ContextDialer_select ctx) ctx
  end.

(** The [ProxyDialer] interface value of a [*ContextDialer]. *)
Definition ContextDialer_iface (c : ContextDialer.t) : DialerObj :=
  {| Dial := ContextDialer_Dial c;
     DialContext := Some (ContextDialer_DialContext c) |}.

(** ** The libraries and the operating system

    What the package calls but does not define: the results of these calls
    are supplied by the environment. *)

Module proxy.
Record Auth := { User : string; Password : string }.
End proxy.

Record Env := {
  url_Parse : string -> option url.URL * option error;
  url_String : url.URL -> string;
  http_NewRequest : string -> string -> option http.Request * option error;
  basicAuth : string -> string -> string;
  Request_Write : http.Request -> option Conn -> Outcome (option error);
  http_ReadResponse :
    option Conn -> http.Request -> Outcome (option http.Response * option error);
  Cmd_Start : exec.Cmd -> nat + error;
  net_JoinHostPort : string -> string -> string;
  proxy_Direct : DialerObj;
  proxy_FromURL :
    list (string * DialerCtor) -> option url.URL -> Dialer ->
    Outcome (Dialer * option error);
  proxy_SOCKS5 :
    string -> string -> option proxy.Auth -> Dialer ->
    Outcome (Dialer * option error)
}.

(** ** httpProxy *)

Module httpProxy.
Record t := {
    host : string;
    haveAuth : bool;
    username : string;
    password : string;
    forward : Dialer
  }.
End httpProxy.

(** [resp.Body.Close()] through a [*http.Response]. *)
Definition Body_Close (resp : option http.Response) : M unit :=
  match resp with
  | None => panic nil_dereference
  | Some r => emit (EvBodyClose (http.Body r))
  end.

Definition SetBasicAuth (env : Env) (req : http.Request) (username password : string)
  : http.Request :=
  http.Header_Set req "Authorization" ("Basic " ++ basicAuth env username password).

Definition status_error (code : Z) : error :=
  Errorf ("Connect server using proxy error, StatusCode [" ++ format_d code ++ "]").

Section HttpProxy.
Variable env : Env.

Definition httpProxy_Dial (s : httpProxy.t) (network addr : string) : M DialResult :=
    '(c, err) <- iface_Dial (httpProxy.forward s) "tcp" (httpProxy.host s) ;;
    match err with
    | Some e => ret (None, Some e)
    | None =>
    let '(reqURL, err) := url_Parse env ("http://" ++ addr) in
    match err with
    | Some e => Conn_Close c ;;; ret (None, Some e)
    | None =>
    match reqURL with
    | None => panic nil_dereference
    | Some reqURL =>
    let reqURL := url.set_Scheme reqURL "" in
    let '(req, err) := http_NewRequest env "CONNECT" (url_String env reqURL) in
    match err with
    | Some e => Conn_Close c ;;; ret (None, Some e)
    | None =>
    match req with
    | None => panic nil_dereference
    | Some req =>
    let req := http.set_Close req false in
    let req := if httpProxy.haveAuth s
               then SetBasicAuth env req (httpProxy.username s) (httpProxy.password s)
               else req in
    let req := http.Header_Set req "User-Agent" "Poweredby Golang" in
    err <- (emit (EvWrite c req) ;;; call (Request_Write env req c)) ;;
    match err with
    | Some e => Conn_Close c ;;; ret (None, Some e)
    | None =>
    '(resp, err) <- (emit (EvRead c) ;;; call (http_ReadResponse env c req)) ;;
    match err with
    | Some e => Body_Close resp ;;; Conn_Close c ;;; ret (None, Some e)
    | None =>
    Body_Close resp ;;;
    match resp with
    | None => panic nil_dereference
    | Some r =>
    if negb (Z.eqb (http.StatusCode r) 200)
    then Conn_Close c ;;; ret (None, Some (status_error (http.StatusCode r)))
    else ret (c, None)
    end end end end end end end end.

Definition httpProxy_iface (s : httpProxy.t) : DialerObj :=
    {| Dial := httpProxy_Dial s; DialContext := None |}.

Definition newHttpProxy (uri : option url.URL) (forward : Dialer)
    : Outcome (Dialer * option error) :=
    match uri with
    | None => Panics nil_dereference
    | Some uri =>
        let s :=
          match url.User uri with
          | Some u =>
              {| httpProxy.host := url.Host uri; httpProxy.haveAuth := true;
                 httpProxy.username := url.username u;
                 httpProxy.password := url.password u;
                 httpProxy.forward := forward |}
          | None =>
              {| httpProxy.host := url.Host uri; httpProxy.haveAuth := false;
                 httpProxy.username := ""; httpProxy.password := "";
                 httpProxy.forward := forward |}
          end in
        Returns (Some (httpProxy_iface s), None)
    end.
End HttpProxy.

(** ** NetPipe: the command tunnel *)

Definition set_netpipes (w : World) (h : list NetPipe.t) : World :=
  {| log := log w; next_conn := next_conn w; netpipes := h; sched := sched w |}.

Fixpoint list_set {A} (l : list A) (i : nat) (x : A) : list A :=
  match l, i with
  | [], _ => []
  | _ :: t, O => x :: t
  | h :: t, S i' => h :: list_set t i' x
  end.

(** Reading and writing through a [*NetPipe]. *)
Definition load (n : nat) : M NetPipe.t :=
  fun w =>
    match nth_error (netpipes w) n with
    | Some np => (Returns np, w)
    | None => (Panics nil_dereference, w)
    end.
Definition store (n : nat) (np : NetPipe.t) : M unit :=
  fun w => (Returns tt, set_netpipes w (list_set (netpipes w) n np)).

(** [new(NetPipe)] *)
Definition new_NetPipe : M nat :=
  fun w =>
    (Returns (length (netpipes w)),
     set_netpipes w (netpipes w ++ [{| NetPipe.Command := ""; NetPipe.Cmd := None |}])).

(** An assignment [n.Cmd.f = v]. *)
Definition update_Cmd (n : nat) (f : exec.Cmd -> exec.Cmd) : M unit :=
  np <- load n ;;
  match NetPipe.Cmd np with
  | None => panic nil_dereference
  | Some cmd => store n (NetPipe.set_Cmd np (f cmd))
  end.

(** [cmd.Wait()]: fails at once when the command was not started, and
    otherwise blocks until the process has ended. *)
Definition Cmd_Wait (cmd : exec.Cmd) : M (option error) :=
  match exec.Process cmd with
  | None => ret (Some (Errorf "exec: not started"))
  | Some pid => fun w => if exited pid w then (Returns None, w) else (Blocks, w)
  end.

(** [p.Kill()] on a [*os.Process]: the method reads the fields of its
    receiver, so a nil receiver panics; killing a process that has ended
    returns an error, which the caller drops. *)
Definition Process_Kill (p : option nat) : M unit :=
  match p with
  | None => panic nil_dereference
  | Some pid => fun w => if exited pid w then (Returns tt, w) else emit (EvKill pid) w
  end.

Section NetPipe.
Variable env : Env.

  (** [n.Cmd.Start()] *)
Definition NetPipe_Cmd_Start (n : nat) : M (option error) :=
    np <- load n ;;
    match NetPipe.Cmd np with
    | None => panic nil_dereference
    | Some cmd =>
        match Cmd_Start env cmd with
        | inl pid =>
            emit (EvStart (exec.Args cmd) (Some pid)) ;;;
            store n (NetPipe.set_Cmd np (exec.set_Process cmd pid)) ;;;
            ret None
        | inr e => emit (EvStart (exec.Args cmd) None) ;;; ret (Some e)
        end
    end.

  (** The goroutine started by [Dial]: [n.Cmd.Wait(); srv.Close()]. *)
Definition watcher (n : nat) (srv : Conn) : M unit :=
    np <- load n ;;
    match NetPipe.Cmd np with
    | None => panic nil_dereference
    | Some cmd => Cmd_Wait cmd ;;; Conn_Close (Some srv)
    end.

Definition NetPipe_Dial (n : nat) (network addr : string) : M DialResult :=
    let network := "" in
    let addr := "" in
    con <- fresh_conn ;;
    srv <- fresh_conn ;;
    emit (EvPipe con srv) ;;;
    np <- load n ;;
    store n (NetPipe.set_Cmd np (exec.Command "sh" ["-c"; NetPipe.Command np])) ;;;
    update_Cmd n (fun cmd => exec.set_Stdin cmd srv) ;;;
    update_Cmd n (fun cmd => exec.set_Stdout cmd srv) ;;;
    err <- NetPipe_Cmd_Start n ;;
    emit (EvGo (Watcher n srv)) ;;;
    ret (Some con, err).

Definition NetPipe_select (n : nat) (ctx : Context) (c : Case) : M DialResult :=
    match c with
    | RecvConn conn => ret (conn, None)
    | RecvErr e => ret (None, Some e)
    | RecvDone =>
        np <- load n ;;
        match NetPipe.Cmd np with
        | None => panic nil_dereference
        | Some cmd => Process_Kill (exec.Process cmd) ;;; ret (None, Some (err ctx))
        end
    end.

Definition NetPipe_DialContext (n : nat) (ctx : Context) (network addr : string)
    : M DialResult :=
    select_race (NetPipe_Dial n network addr) (NetPipe_select n ctx) ctx.

Definition NetPipe_iface (n : nat) : DialerObj :=
    {| Dial := NetPipe_Dial n; DialContext := Some (NetPipe_DialContext n) |}.
End NetPipe.

(** ** Proxy: configuration and factory *)

Module Proxy.
Record t := {
    Type_ : string;
    Addr : string;
    Port : string;
    User : string;
    Password : string;
    Command : string;
    Forwarder : Dialer
  }.
End Proxy.

Definition nonempty (s : string) : bool := negb (String.eqb s "").

(** Assignments through a [*proxy.Auth]. *)
Definition Auth_set_User (a : option proxy.Auth) (u : string) : M (option proxy.Auth) :=
  match a with
  | None => panic nil_dereference
  | Some a => ret (Some {| proxy.User := u; proxy.Password := proxy.Password a |})
  end.
Definition Auth_set_Password (a : option proxy.Auth) (p : string) : M (option proxy.Auth) :=
  match a with
  | None => panic nil_dereference
  | Some a => ret (Some {| proxy.User := proxy.User a; proxy.Password := p |})
  end.

(** The schemes registered so far, latest registration first. *)
Fixpoint registered (l : list Event) : list (string * DialerCtor) :=
  match l with
  | [] => []
  | EvRegister scheme f :: l' => (scheme, f) :: registered l'
  | _ :: l' => registered l'
  end.
Definition proxySchemes : M (list (string * DialerCtor)) :=
  fun w => (Returns (registered (log w)), w).

Section Factory.
Variable env : Env.

Definition default_forwarder (p : Proxy.t) : Dialer :=
    match Proxy.Forwarder p with
    | Some f => Some f
    | None => Some (proxy_Direct env)
    end.

Definition CreateHttpProxyDialer (p : Proxy.t) : M (Dialer * option error) :=
    emit (EvRegister "http" NewHttpProxy) ;;;
    emit (EvRegister "https" NewHttpProxy) ;;;
    let proxyURL := Proxy.Type_ p ++ "://" ++ Proxy.Addr p in
    let proxyURL :=
      if nonempty (Proxy.User p) && nonempty (Proxy.Password p)
      then Proxy.Type_ p ++ "://" ++ Proxy.User p ++ ":" ++ Proxy.Password p
                         ++ "@" ++ Proxy.Addr p
      else proxyURL in
    let proxyURL :=
      if nonempty (Proxy.Port p) then proxyURL ++ ":" ++ Proxy.Port p else proxyURL in
    let '(proxyURI, _) := url_Parse env proxyURL in
    let forwarder := default_forwarder p in
    schemes <- proxySchemes ;;
    call (proxy_FromURL env schemes proxyURI forwarder).

Definition CreateSocks5ProxyDialer (p : Proxy.t) : M (Dialer * option error) :=
    let proxyAuth : option proxy.Auth := None in
    proxyAuth <-
      (if nonempty (Proxy.User p) && nonempty (Proxy.Password p)
       then a <- Auth_set_User proxyAuth (Proxy.User p) ;;
            Auth_set_Password a (Proxy.Password p)
       else ret proxyAuth) ;;
    let forwarder := default_forwarder p in
    call (proxy_SOCKS5 env "tcp" (net_JoinHostPort env (Proxy.Addr p) (Proxy.Port p))
                       proxyAuth forwarder).

Definition CreateProxyCommandProxyDialer (p : Proxy.t) : M (Dialer * option error) :=
    np <- new_NetPipe ;;
    n <- load np ;;
    store np {| NetPipe.Command := Proxy.Command p; NetPipe.Cmd := NetPipe.Cmd n |} ;;;
    ret (Some (NetPipe_iface env np), None).

Definition CreateProxyDialer (p : Proxy.t) : M (ContextDialer.t * option error) :=
    let t := Proxy.Type_ p in
    '(proxyDialer, err) <-
      (if String.eqb t "http" || String.eqb t "https" then CreateHttpProxyDialer p
       else if String.eqb t "socks" || String.eqb t "socks5" then CreateSocks5ProxyDialer p
       else if String.eqb t "command" then CreateProxyCommandProxyDialer p
       else ret (None, None)) ;;
    ret ({| ContextDialer.Dialer := proxyDialer |}, err).
End Factory.

(** ** Derived notions used in the statements *)

(** The CONNECT request as [httpProxy.Dial] sends it, from the request
    that [http.NewRequest] produced. *)
Definition connect_request (env : Env) (s : httpProxy.t) (req0 : http.Request)
  : http.Request :=
  let req := http.set_Close req0 false in
  let req := if httpProxy.haveAuth s
             then SetBasicAuth env req (httpProxy.username s) (httpProxy.password s)
             else req in
  http.Header_Set req "User-Agent" "Poweredby Golang".

(** The proxy types that the factory's [switch] knows. *)
Definition recognized (t : string) : bool :=
  String.eqb t "http" || String.eqb t "https" || String.eqb t "socks"
  || String.eqb t "socks5" || String.eqb t "command".



(** The command that [NetPipe.Dial] starts. *)
Definition tunnel_cmd (command : string) (srv : Conn) : exec.Cmd :=
  exec.set_Stdout (exec.set_Stdin (exec.Command "sh" ["-c"; command]) srv) srv.

Definition is_GoDial (e : RaceEvent) : bool :=
  match e with GoDial => true | CtxCancel => false end.
Definition is_CtxCancel (e : RaceEvent) : bool :=
  match e with GoDial => false | CtxCancel => true end.

(** Who the [select] sees complete first. *)
Inductive Winner := DialFirst | CancelFirst | Tie | Nobody.

Definition winner (ctx : Context) (s : Schedule) : Winner :=
  match existsb is_GoDial (before_select s),
        done ctx || existsb is_CtxCancel (before_select s) with
  | true, true => Tie
  | true, false => DialFirst
  | false, true => CancelFirst
  | false, false =>
      match while_blocked s with
      | GoDial :: _ => DialFirst
      | CtxCancel :: _ => CancelFirst
      | [] => Nobody
      end
  end.

(** The events of a schedule, in order. *)
Definition events (s : Schedule) : list RaceEvent :=
  before_select s ++ while_blocked s.

(** What the fallback of [DialContext] makes of the blocking dial's
    outcome when nothing else interferes. *)
Definition relayed (r : Outcome DialResult * World) : Outcome DialResult * World :=
  match r with
  | (Returns (conn, Some e), w) => (Returns (None, Some e), w)
  | (Returns (conn, None), w) => (Returns (conn, None), w)
  | other => other
  end.

(** The dial up to and including the write of the CONNECT request. *)
Record Connected (env : Env) (s : httpProxy.t) (addr : string)
  (w w1 : World) (c : Conn) (req : http.Request) : Prop := {
  forward_dialed :
    iface_Dial (httpProxy.forward s) "tcp" (httpProxy.host s) w
    = (Returns (Some c, None), w1);
  target_parsed : exists reqURL req0,
    url_Parse env ("http://" ++ addr) = (Some reqURL, None) /\
    http_NewRequest env "CONNECT" (url_String env (url.set_Scheme reqURL ""))
    = (Some req0, None) /\
    req = connect_request env s req0;
  request_written : Request_Write env req (Some c) = Returns None
}.

Definition logged (e : Event) (w : World) : World :=
  {| log := e :: log w; next_conn := next_conn w;
     netpipes := netpipes w; sched := sched w |}.

(** The world once the request has been written and the response has
    been asked for. *)
Definition after_request (w1 : World) (c : Conn) (req : http.Request) : World :=
  logged (EvRead (Some c)) (logged (EvWrite (Some c) req) w1).

(** The state of the channels after the goroutine has run on fresh
    channels, by the outcome of its dial. *)
Definition sent (ctx : Context) (r : Outcome DialResult) : Chans :=
  match r with
  | Returns (conn, Some e) => send_err (mark_dialed (chans_init ctx)) e
  | Returns (conn, None) => send_conn (mark_dialed (chans_init ctx)) conn
  | _ => mark_dialed (chans_init ctx)
  end.

(** The outcome of the race when the [select] sees the dial complete and
    no cancellation. *)
Definition dial_won (handler : Case -> M DialResult)
  (r : Outcome DialResult * World) : Outcome DialResult * World :=
  match r with
  | (Returns (conn, Some e), w') => handler (RecvErr e) w'
  | (Returns (conn, None), w') => handler (RecvConn conn) w'
  | (Panics reason, w') => (Panics reason, w')
  | (Blocks, w') => (Blocks, w')
  end.

(** ** Further notions used in the statements *)



(** Reading back a number printed with [%d]. *)
Definition parse_d (s : string) : option Z :=
  option_map Z.of_int (NilZero.int_of_string s).

(** The configuration with both credentials removed. *)
Definition without_credentials (p : Proxy.t) : Proxy.t :=
  {| Proxy.Type_ := Proxy.Type_ p; Proxy.Addr := Proxy.Addr p;
     Proxy.Port := Proxy.Port p; Proxy.User := ""; Proxy.Password := "";
     Proxy.Command := Proxy.Command p; Proxy.Forwarder := Proxy.Forwarder p |}.

(** The process has ended: the operating system reports its exit. *)
Definition process_exits (pid : nat) (w : World) : World := logged (EvExit pid) w.

(** A schedule in which the dial completes, the context is cancelled, and
    only then the [select] is evaluated, with Go's pick given. *)
Definition both_ready (pick : nat) : Schedule :=
  {| before_select := [GoDial; CtxCancel]; pick := pick; while_blocked := [] |}.

Definition with_sched (w : World) (s : Schedule) : World :=
  {| log := log w; next_conn := next_conn w; netpipes := netpipes w; sched := s |}.

(** A [NetPipe] whose command was started as process [pid]. *)
Definition started_pipe (command : string) (srv : Conn) (pid : nat) : NetPipe.t :=
  {| NetPipe.Command := command;
     NetPipe.Cmd := Some (exec.set_Process (tunnel_cmd command srv) pid) |}.

(** What the goroutine sends, by the outcome of its dial. *)
Definition deliver (st : Chans) (o : Outcome DialResult) : Chans :=
  match o with
  | Returns (conn, Some e) => send_err st e
  | Returns (conn, None) => send_conn st conn
  | _ => st
  end.

(** The channels and the world during a race that started in [w]: until
    the goroutine has run, the channels are empty and the world is [w];
    afterwards the world is the one the dial left and the channels hold
    what the dial returned. *)
Definition race_inv (dial : M DialResult) (w : World) (st : Chans) (wc : World) : Prop :=
  if dialed st
  then match dial w with
       | (Panics _, _) => False
       | (o, w1) => wc = w1 /\ st = deliver (mark_dialed
                                            {| connChan := None; errChan := None;
                                               ctxDone := ctxDone st; dialed := false |}) o
       end
  else wc = w /\ connChan st = None /\ errChan st = None.

(** What [ContextDialer.DialContext] returns when its [select] takes the
    dial's result. *)
Definition relay (conn : option Conn) (e : option error) : DialResult :=
  match e with
  | Some e' => (None, Some e')
  | None => (conn, None)
  end.

(** Every case that a race takes is taken in a state that the invariant
    describes, and the case of the cancellation only after a cancellation. *)
Definition taken (dial : M DialResult) (handler : Case -> M DialResult) (w : World)
  (st0 : Chans) (evs : list RaceEvent) (res : Outcome DialResult * World) : Prop :=
  match res with
  | (Returns _, _) =>
      exists st' wc' c,
        race_inv dial w st' wc' /\ In c (ready st') /\ res = handler c wc' /\
        (ctxDone st' = true -> ctxDone st0 = true \/ existsb is_CtxCancel evs = true)
  | _ => True
  end.

(** The world that [NetPipe.Dial] leaves, for the [NetPipe] [np] at
    address [n]. *)
Definition after_Dial (env : Env) (n : nat) (np : NetPipe.t) (w : World) : World :=
  let con := next_conn w in
  let srv := S con in
  let cmd := tunnel_cmd (NetPipe.Command np) srv in
  match Cmd_Start env cmd with
  | inl pid =>
      {| log := EvGo (Watcher n srv) :: EvStart (exec.Args cmd) (Some pid)
                  :: EvPipe con srv :: log w;
         next_conn := S srv;
         netpipes := list_set (netpipes w) n
                       (NetPipe.set_Cmd np (exec.set_Process cmd pid));
         sched := sched w |}
  | inr _ =>
      {| log := EvGo (Watcher n srv) :: EvStart (exec.Args cmd) None
                  :: EvPipe con srv :: log w;
         next_conn := S srv;
         netpipes := list_set (netpipes w) n (NetPipe.set_Cmd np cmd);
         sched := sched w |}
  end.

(** The error that [NetPipe.Dial] returns. *)
Definition Dial_error (env : Env) (np : NetPipe.t) (w : World) : option error :=
  match Cmd_Start env (tunnel_cmd (NetPipe.Command np) (S (next_conn w))) with
  | inl _ => None
  | inr e => Some e
  end.

(** ** sftp: the action of the [symlink] command

    [RunSftp.symlink] installs one action on a [cli] application and runs
    it on the parsed arguments.  The action is embedded here as a function
    of [c.Args()].  The clients ([TargetConnectMap]), [createTargetMap] and
    [ExpandRemotePath] are declared elsewhere in the package, and
    [filepath] and the remote [Symlink] are library calls: they are
    supplied by [sftp.Env].  The goroutines, one for each server, are run
    one after the other in the order in which the map is ranged over, which
    is exact when there is one server; they share the variable [target]. *)
Module sftp.

Record Client := { Path : list string; Pwd : string; Connect : nat }.

Inductive Event :=
| Println (line : string)                          (* fmt.Println *)
| OutputCreate (server : string)                   (* client.Output.Create(server) *)
| Fprintf (server : string) (e : error)            (* fmt.Fprintf(w, "%s\n", err) *)
| Symlink (server : string) (source target : string)
| ExitSend.                                        (* exit <- true *)

Record Env := {
  createTargetMap : string -> list (string * Client);
  ExpandRemotePath : Client -> string -> list string * option error;
  IsAbs : string -> bool;
  Join : string -> string -> string;
  Connect_Symlink : Client -> string -> string -> option error
}.

(** The output so far, oldest first, and the shared variable [target]. *)
Record State := { trace : list Event; target : string }.

Definition emit (e : Event) (st : State) : State :=
  {| trace := trace st ++ [e]; target := target st |}.
Definition set_target (st : State) (t : string) : State :=
  {| trace := trace st; target := t |}.

Definition index_out_of_range : string := "index out of range [0] with length 0".

(** The body of the goroutine started for one server. *)
Definition symlink_goroutine (env : Env) (server : string) (client : Client)
  (st : State) : Outcome unit * State :=
  let st := emit (OutputCreate server) st in
  match Path client with
  | [] => (Panics index_out_of_range, st)
  | path0 :: _ =>
      let '(pList, err) := ExpandRemotePath env client path0 in
      match err with
      | Some e => (Returns tt, emit ExitSend (emit (Fprintf server e) st))
      | None =>
          match pList with
          | [] => (Panics index_out_of_range, st)
          | source :: _ =>
              let source :=
                if negb (IsAbs env source) then Join env (Pwd client) source
                else source in
              let st :=
                if negb (IsAbs env (target st))
                then set_target st (Join env (Pwd client) (target st))
                else st in
              let st := emit (Symlink server source (target st)) st in
              match Connect_Symlink env client source (target st) with
              | Some e => (Returns tt, emit ExitSend (emit (Fprintf server e) st))
              | None => (Returns tt, emit ExitSend st)
              end
          end
      end
  end.

(** [for s, cl := range targetmap { go func() { ... }() }] *)
Fixpoint run_goroutines (env : Env) (targetmap : list (string * Client))
  (st : State) : Outcome unit * State :=
  match targetmap with
  | [] => (Returns tt, st)
  | (server, client) :: rest =>
      match symlink_goroutine env server client st with
      | (Returns _, st') => run_goroutines env rest st'
      | (Panics reason, st') => (Panics reason, st')
      | (Blocks, st') => (Blocks, st')
      end
  end.

Definition is_ExitSend (e : Event) : bool :=
  match e with ExitSend => true | _ => false end.
Definition exits (l : list Event) : nat := length (filter is_ExitSend l).

(** [app.Action]: the loop [for i := 0; i < len(targetmap); i++ { <-exit }]
    returns once it has received one value for each server. *)
Definition symlink_Action (env : Env) (args : list string)
  : Outcome (option error) * list Event :=
  match args with
  | [source; target] =>
      let targetmap := createTargetMap env source in
      match run_goroutines env targetmap {| trace := []; target := target |} with
      | (Returns _, st) =>
          (if Nat.leb (length targetmap) (exits (trace st)) then Returns None else Blocks,
           trace st)
      | (Panics reason, st) => (Panics reason, trace st)
      | (Blocks, st) => (Blocks, trace st)
      end
  | _ =>
      (Returns None, [Println "Requires two arguments"; Println "symlink source target"])
  end.

Definition is_Symlink (e : Event) : bool :=
  match e with Symlink _ _ _ => true | _ => false end.

(** The targets of the [Symlink] calls of a trace, in order. *)
Fixpoint symlink_targets (l : list Event) : list string :=
  match l with
  | [] => []
  | Symlink _ _ t :: l' => t :: symlink_targets l'
  | _ :: l' => symlink_targets l'
  end.

(** Every client has a path, and an expansion without error is not empty. *)
Definition expandable (env : Env) (targetmap : list (string * Client)) : Prop :=
  forall server client, In (server, client) targetmap ->
    exists path0 rest,
      Path client = path0 :: rest /\
      (snd (ExpandRemotePath env client path0) = None ->
       fst (ExpandRemotePath env client path0) <> []).

(** Test doubles. *)
Definition home (pwd : string) : Client :=
  {| Path := ["link"]; Pwd := pwd; Connect := 0 |}.
Definition stub_env (targetmap : list (string * Client)) (expansion : list string)
  (expand_err link_err : option error) : Env :=
  {| createTargetMap := fun _ => targetmap;
     ExpandRemotePath := fun _ _ => (expansion, expand_err);
     IsAbs := fun p => match p with String "/" _ => true | _ => false end;
     Join := fun d p => d ++ "/" ++ p;
     Connect_Symlink := fun _ _ _ => link_err |}.
End sftp.

(** ** Test doubles for the closed examples *)

Definition idle : Schedule :=
  {| before_select := []; pick := 0; while_blocked := [] |}.
Definition dial_then_select : Schedule :=
  {| before_select := [GoDial]; pick := 0; while_blocked := [] |}.

Definition world0 (s : Schedule) : World :=
  {| log := []; next_conn := 0; netpipes := []; sched := s |}.

Definition fixed_dialer (r : DialResult) : DialerObj :=
  {| Dial := fun _ _ => ret r; DialContext := None |}.

Definition connecting_dialer : DialerObj :=
  {| Dial := fun _ _ => c <- fresh_conn ;; ret (Some c, None); DialContext := None |}.

Definition stub_env (reply : Outcome (option http.Response * option error))
  (start : nat + error) : Env :=
  {| url_Parse := fun raw =>
       (Some {| url.Scheme := "http"; url.User := None; url.Host := raw; url.Path := "" |},
        None);
     url_String := url.Host;
     http_NewRequest := fun m t =>
       (Some {| http.Method := m; http.Target := t; http.Close := true; http.Header := [] |},
        None);
     basicAuth := fun u p => u ++ ":" ++ p;
     Request_Write := fun _ _ => Returns None;
     http_ReadResponse := fun _ _ => reply;
     Cmd_Start := fun _ => start;
     net_JoinHostPort := fun h p => h ++ ":" ++ p;
     proxy_Direct := connecting_dialer;
     proxy_FromURL := fun _ _ fwd => Returns (fwd, None);
     proxy_SOCKS5 := fun _ _ _ fwd => Returns (fwd, None) |}.

Definition via_proxy : httpProxy.t :=
  {| httpProxy.host := "proxy:3128"; httpProxy.haveAuth := false;
     httpProxy.username := ""; httpProxy.password := "";
     httpProxy.forward := Some connecting_dialer |}.

Definition reply_with (code : Z) : Outcome (option http.Response * option error) :=
  Returns (Some {| http.StatusCode := code; http.Body := 0 |}, None).

(** A library whose [url.Parse] and [Request.Write] fail as given. *)
Definition stub_env_failing (parse_err write_err : option error) : Env :=
  {| url_Parse := fun raw =>
       (match parse_err with
        | Some _ => None
        | None => Some {| url.Scheme := "http"; url.User := None;
                          url.Host := raw; url.Path := "" |}
        end, parse_err);
     url_String := url.Host;
     http_NewRequest := fun m t =>
       (Some {| http.Method := m; http.Target := t; http.Close := true; http.Header := [] |},
        None);
     basicAuth := fun u p => u ++ ":" ++ p;
     Request_Write := fun _ _ => Returns write_err;
     http_ReadResponse := fun _ _ => reply_with 200;
     Cmd_Start := fun _ => inl 1;
     net_JoinHostPort := fun h p => h ++ ":" ++ p;
     proxy_Direct := connecting_dialer;
     proxy_FromURL := fun _ _ fwd => Returns (fwd, None);
     proxy_SOCKS5 := fun _ _ _ fwd => Returns (fwd, None) |}.

Definition proxy_config (t user pass : string) : Proxy.t :=
  {| Proxy.Type_ := t; Proxy.Addr := "10.0.0.1"; Proxy.Port := "1080";
     Proxy.User := user; Proxy.Password := pass;
     Proxy.Command := "nc %h %p"; Proxy.Forwarder := None |}.

Definition background : Context := {| done := false; err := Canceled |}.
Definition cancelled : Context := {| done := true; err := Canceled |}.

(** * Properties *)

(** ** httpProxy.Dial *)

Section HttpProxyFacts.
Variable env : Env.
Variable s : httpProxy.t.
Variables network addr : string.

Lemma httpProxy_Dial_read (w w1 : World) (c : Conn) (req : http.Request) :
    Connected env s addr w w1 c req ->
    httpProxy_Dial env s network addr w =
    match http_ReadResponse env (Some c) req with
    | Returns (resp, Some e) =>
        (Body_Close resp ;;; Conn_Close (Some c) ;;; ret (None, Some e))
          (after_request w1 c req)
    | Returns (Some r, None) =>
        if negb (Z.eqb (http.StatusCode r) 200)
        then (Returns (None, Some (status_error (http.StatusCode r))),
              logged (EvClose c) (logged (EvBodyClose (http.Body r))
                                         (after_request w1 c req)))
        else (Returns (Some c, None),
              logged (EvBodyClose (http.Body r)) (after_request w1 c req))
    | Returns (None, None) => (Panics nil_dereference, after_request w1 c req)
    | Panics reason => (Panics reason, after_request w1 c req)
    | Blocks => (Blocks, after_request w1 c req)
    end.
Proof.
    intros [Hd (reqURL & req0 & Hp & Hn & Hr) Hw].
    unfold httpProxy_Dial, bind at 1.
    rewrite Hd, Hp, Hn.
    fold (connect_request env s req0). rewrite <- Hr.
    unfold bind, emit, call; cbn. rewrite Hw.
    destruct (http_ReadResponse env (Some c) req) as [[[r|] [e|]]|reason|];
      cbn; try reflexivity.
    destruct (Z.eqb (http.StatusCode r) 200); reflexivity.
Qed.


(** C3 fails on the code.  When [http.ReadResponse] returns an error, and
    with it a nil response, [httpProxy.Dial] calls [resp.Body.Close()]
    before anything else: the dial panics on the nil response, and the
    connection to the proxy is left as it was, not closed. *)
Theorem httpProxy_Dial_unparsable_response
  (w w1 : World) (c : Conn) (req : http.Request) (e : error) :
  Connected env s addr w w1 c req ->
  http_ReadResponse env (Some c) req = Returns (None, Some e) ->
  httpProxy_Dial env s network addr w
  = (Panics nil_dereference, after_request w1 c req) /\
  closed c (after_request w1 c req) = closed c w1.
Proof.
  intros Hc Hresp.
  rewrite (httpProxy_Dial_read w w1 c req Hc), Hresp.
  split; reflexivity.
Qed.
End HttpProxyFacts.

Lemma via_proxy_connected (reply : Outcome (option http.Response * option error)) :
  Connected (stub_env reply (inl 1)) via_proxy "target:22" (world0 idle)
    {| log := []; next_conn := 1; netpipes := []; sched := idle |} 0
    (connect_request (stub_env reply (inl 1)) via_proxy
       {| http.Method := "CONNECT"; http.Target := "http://target:22";
          http.Close := true; http.Header := [] |}).
Proof.
  split.
  - reflexivity.
  - eexists; eexists. split; [reflexivity|]. split; reflexivity.
  - reflexivity.
Defined.



Lemma httpProxy_Dial_unparsable_response_witness :
  let env := stub_env (Returns (None, Some (Foreign 7))) (inl 1) in
  let w1 := {| log := []; next_conn := 1; netpipes := []; sched := idle |} in
  let req := connect_request env via_proxy
               {| http.Method := "CONNECT"; http.Target := "http://target:22";
                  http.Close := true; http.Header := [] |} in
  httpProxy_Dial env via_proxy "tcp" "target:22" (world0 idle)
  = (Panics nil_dereference, after_request w1 0 req) /\
  closed 0 (after_request w1 0 req) = closed 0 w1.
Proof.
  exact (httpProxy_Dial_unparsable_response
           (stub_env (Returns (None, Some (Foreign 7))) (inl 1)) via_proxy
           "tcp" "target:22" (world0 idle) _ 0 _ (Foreign 7)
           (via_proxy_connected (Returns (None, Some (Foreign 7)))) eq_refl).
Defined.

(** ** The select race *)

Section RaceFacts.
Variable dial : M DialResult.
Variable handler : Case -> M DialResult.

Lemma close_done_idem (st : Chans) : close_done (close_done st) = close_done st.
Proof. reflexivity. Qed.

Lemma choose_single (pick : nat) (c : Case) : choose pick [c] = Some c.
Proof. unfold choose. cbn [length]. now rewrite Nat.mod_1_r. Qed.

Lemma choose_nil (pick : nat) : choose pick [] = None.
Proof. unfold choose. now destruct (pick mod length (@nil Case)). Qed.

(** While the goroutine has not run, the events before the [select] can
    only close [ctx.Done()]. *)
Lemma race_steps_no_dial (evs : list RaceEvent) (st : Chans) (w : World) :
  existsb is_GoDial evs = false ->
  race_steps dial evs st w =
  (Returns (if existsb is_CtxCancel evs then close_done st else st), w).
Proof.
  revert st. induction evs as [|[|] evs IH]; intros st H; cbn in *.
  - reflexivity.
  - discriminate.
  - unfold bind; cbn. rewrite (IH _ H).
    destruct (existsb is_CtxCancel evs); reflexivity.
Qed.

(** Once the goroutine has run, further events that are not cancellations
    change nothing. *)
Lemma race_steps_dialed (evs : list RaceEvent) (st : Chans) (w : World) :
  existsb is_CtxCancel evs = false -> dialed st = true ->
  race_steps dial evs st w = (Returns st, w).
Proof.
  induction evs as [|[|] evs IH]; intros Hc Hd; cbn in *.
  - reflexivity.
  - unfold bind; cbn. rewrite Hd. cbn. now apply IH.
  - discriminate.
Qed.

Lemma race_blocked_dialed (evs : list RaceEvent) (st : Chans) (w : World) :
  existsb is_CtxCancel evs = false -> dialed st = true -> ready st = [] ->
  race_blocked dial handler evs st w = (Blocks, w).
Proof.
  induction evs as [|[|] evs IH]; intros Hc Hd Hr; cbn in *.
  - reflexivity.
  - unfold bind; cbn. rewrite Hd. cbn. rewrite Hr. now apply IH.
  - discriminate.
Qed.

Lemma race_steps_dial (ctx : Context) (evs : list RaceEvent) (w : World) :
  existsb is_CtxCancel evs = false -> existsb is_GoDial evs = true ->
  race_steps dial evs (chans_init ctx) w =
  match dial w with
  | (Panics reason, w') => (Panics reason, w')
  | (r, w') => (Returns (sent ctx r), w')
  end.
Proof.
  destruct evs as [|[|] evs]; cbn; intros Hc Hd; try discriminate.
  unfold bind, dial_goroutine; cbn.
  destruct (dial w) as [[[conn [e|]]|reason|] w']; cbn; try reflexivity;
    now apply race_steps_dialed.
Qed.

Lemma select_race_dial_first (ctx : Context) (w : World) :
  winner ctx (sched w) = DialFirst ->
  (forall w', dial w <> (Blocks, w')) ->
  select_race dial handler ctx w = dial_won handler (dial w).
Proof.
  unfold winner, select_race, bind, get_sched. intros Hw Hnb.
  destruct (existsb is_GoDial (before_select (sched w))) eqn:Hd;
    destruct (done ctx || existsb is_CtxCancel (before_select (sched w))) eqn:Hc;
    try discriminate.
  - apply orb_false_elim in Hc as [Hdone Hc].
    rewrite (race_steps_dial ctx _ w Hc Hd).
    destruct (dial w) as [[[conn [e|]]|reason|] w']; cbn.
    + unfold ready; cbn. rewrite Hdone. now rewrite choose_single.
    + unfold ready; cbn. rewrite Hdone. now rewrite choose_single.
    + reflexivity.
    + now destruct (Hnb w').
  - apply orb_false_elim in Hc as [Hdone Hc].
    rewrite (race_steps_no_dial _ _ w Hd), Hc.
    unfold ready at 1; cbn. rewrite Hdone. cbn. rewrite choose_nil.
    destruct (while_blocked (sched w)) as [|[|] evs]; try discriminate.
    cbn. unfold bind, dial_goroutine; cbn.
    destruct (dial w) as [[[conn [e|]]|reason|] w']; cbn.
    + reflexivity.
    + reflexivity.
    + reflexivity.
    + now destruct (Hnb w').
Qed.

Lemma select_race_cancel_first (ctx : Context) (w : World) :
  winner ctx (sched w) = CancelFirst ->
  select_race dial handler ctx w = handler RecvDone w.
Proof.
  unfold winner, select_race, bind, get_sched. intros Hw.
  destruct (existsb is_GoDial (before_select (sched w))) eqn:Hd;
    destruct (done ctx || existsb is_CtxCancel (before_select (sched w))) eqn:Hc;
    try discriminate.
  - rewrite (race_steps_no_dial _ _ w Hd).
    assert (Hr : ready (if existsb is_CtxCancel (before_select (sched w))
                        then close_done (chans_init ctx) else chans_init ctx)
                 = [RecvDone]).
    { destruct (existsb is_CtxCancel (before_select (sched w))); [reflexivity|].
      rewrite orb_false_r in Hc. unfold ready; cbn. now rewrite Hc. }
    rewrite Hr, choose_single. reflexivity.
  - apply orb_false_elim in Hc as [Hdone Hc].
    rewrite (race_steps_no_dial _ _ w Hd), Hc.
    unfold ready at 1; cbn. rewrite Hdone. cbn. rewrite choose_nil.
    destruct (while_blocked (sched w)) as [|[|] evs]; try discriminate.
    reflexivity.
Qed.

(** Without any cancellation, and with the goroutine given its turn, the
    race is decided by the dial alone, whatever its outcome. *)
Lemma select_race_never_cancelled (ctx : Context) (w : World) :
  done ctx = false ->
  existsb is_CtxCancel (events (sched w)) = false ->
  existsb is_GoDial (events (sched w)) = true ->
  select_race dial handler ctx w = dial_won handler (dial w).
Proof.
  unfold events. rewrite !existsb_app. intros Hdone Hc Hd.
  apply orb_false_elim in Hc as [Hc1 Hc2].
  destruct (dial w) as [r w'] eqn:Hdial.
  assert (Hwin : winner ctx (sched w) = DialFirst).
  { unfold winner. rewrite Hdone, Hc1. cbn.
    destruct (existsb is_GoDial (before_select (sched w))); [reflexivity|].
    cbn in Hd. destruct (while_blocked (sched w)) as [|[|] evs];
      cbn in *; try discriminate; reflexivity. }
  destruct r as [a|reason|].
  - rewrite <- Hdial. apply select_race_dial_first; [exact Hwin|].
    intros w''. rewrite Hdial. discriminate.
  - rewrite <- Hdial. apply select_race_dial_first; [exact Hwin|].
    intros w''. rewrite Hdial. discriminate.
  - cbn. unfold select_race, bind, get_sched.
    destruct (existsb is_GoDial (before_select (sched w))) eqn:Hd1.
    + rewrite (race_steps_dial ctx _ w Hc1 Hd1), Hdial. cbn.
      unfold ready; cbn. rewrite Hdone. cbn. rewrite choose_nil.
      now apply race_blocked_dialed; [| |unfold ready; cbn; rewrite Hdone].
    + rewrite (race_steps_no_dial _ _ w Hd1), Hc1.
      unfold ready at 1; cbn. rewrite Hdone. cbn. rewrite choose_nil.
      cbn in Hd.
      destruct (while_blocked (sched w)) as [|[|] evs]; cbn in *; try discriminate.
      unfold bind, dial_goroutine; cbn. rewrite Hdial. cbn.
      unfold ready; cbn. rewrite Hdone. cbn.
      now apply race_blocked_dialed; [| |unfold ready; cbn; rewrite Hdone].
Qed.
End RaceFacts.

(** ** ContextDialer *)

Lemma dial_won_ContextDialer (ctx : Context) (r : Outcome DialResult * World) :
  dial_won (ContextDialer_select ctx) r = relayed r.
Proof. destruct r as [[[conn [e|]]|reason|] w]; reflexivity. Qed.



(** C10 as stated fails: a wrapped [Dial] may return a connection together
    with an error, and the fallback of [DialContext] then returns the
    error alone. *)
Lemma ContextDialer_DialContext_drops_conn :
  let d := fixed_dialer (Some 7, Some (Foreign 1)) in
  let c := {| ContextDialer.Dialer := Some d |} in
  let w := world0 dial_then_select in
  DialContext d = None /\
  done background = false /\
  existsb is_CtxCancel (events (sched w)) = false /\
  ContextDialer_Dial c "tcp" "host:22" w = (Returns (Some 7, Some (Foreign 1)), w) /\
  ContextDialer_DialContext c background "tcp" "host:22" w
  = (Returns (None, Some (Foreign 1)), w) /\
  ContextDialer_DialContext c background "tcp" "host:22" w
  <> ContextDialer_Dial c "tcp" "host:22" w.
Proof.
  cbv zeta. repeat split; discriminate.
Qed.

(** C10, amended.  For a wrapped dialer without a [DialContext] method and
    a context that is never cancelled, [ContextDialer.DialContext] has the
    effects of the wrapped [Dial] and relays its outcome: the error alone
    when [Dial] reports one, the connection with a nil error otherwise; so
    it returns exactly what [Dial] returns unless [Dial] returns a
    connection together with an error.  [ContextDialer.Dial] is the
    wrapped [Dial]. *)
Theorem ContextDialer_DialContext_never_cancelled
  (d : DialerObj) (ctx : Context) (network addr : string) (w : World) :
  DialContext d = None ->
  done ctx = false ->
  existsb is_CtxCancel (events (sched w)) = false ->
  existsb is_GoDial (events (sched w)) = true ->
  let c := {| ContextDialer.Dialer := Some d |} in
  ContextDialer_DialContext c ctx network addr w = relayed (Dial d network addr w) /\
  ContextDialer_Dial c network addr = Dial d network addr /\
  (forall conn e w',
     Dial d network addr w = (Returns (conn, e), w') ->
     conn = None \/ e = None ->
     ContextDialer_DialContext c ctx network addr w = ContextDialer_Dial c network addr w).
Proof.
  intros Hn Hdone Hc Hd c.
  assert (H : ContextDialer_DialContext c ctx network addr w
              = relayed (Dial d network addr w)).
  { unfold ContextDialer_DialContext; cbn. rewrite Hn.
    rewrite select_race_never_cancelled by assumption.
    apply dial_won_ContextDialer. }
  split; [exact H|]. split; [reflexivity|].
  intros conn e w' Hdial Hwf. rewrite H. unfold ContextDialer_Dial; cbn.
  rewrite Hdial. destruct Hwf as [-> | ->]; [destruct e|]; reflexivity.
Qed.

Lemma ContextDialer_DialContext_never_cancelled_witness :
  let d := fixed_dialer (None, Some (Foreign 1)) in
  let c := {| ContextDialer.Dialer := Some d |} in
  let w := world0 dial_then_select in
  ContextDialer_DialContext c background "tcp" "host:22" w
  = relayed (Dial d "tcp" "host:22" w) /\
  ContextDialer_Dial c "tcp" "host:22" = Dial d "tcp" "host:22" /\
  (forall conn e w',
     Dial d "tcp" "host:22" w = (Returns (conn, e), w') ->
     conn = None \/ e = None ->
     ContextDialer_DialContext c background "tcp" "host:22" w
     = ContextDialer_Dial c "tcp" "host:22" w).
Proof.
  exact (ContextDialer_DialContext_never_cancelled
           (fixed_dialer (None, Some (Foreign 1))) background "tcp" "host:22"
           (world0 dial_then_select) eq_refl eq_refl eq_refl eq_refl).
Defined.

(** ** The factory *)

Lemma unrecognized_cases (t : string) :
  recognized t = false ->
  (String.eqb t "http" || String.eqb t "https") = false /\
  (String.eqb t "socks" || String.eqb t "socks5") = false /\
  String.eqb t "command" = false.
Proof.
  unfold recognized. intros H.
  repeat (apply orb_false_elim in H as [H ?]).
  repeat split; try assumption; apply orb_false_intro; assumption.
Qed.

(** C1 fails on the code.  With both a user and a password set,
    [CreateSocks5ProxyDialer] assigns [proxyAuth.User] through a pointer
    that is still nil: the construction panics, and no SOCKS5 dialer, with
    or without authentication, is built. *)
Theorem CreateSocks5ProxyDialer_both_credentials
  (env : Env) (p : Proxy.t) (w : World) :
  Proxy.User p <> "" -> Proxy.Password p <> "" ->
  CreateSocks5ProxyDialer env p w = (Panics nil_dereference, w).
Proof.
  intros Hu Hp. unfold CreateSocks5ProxyDialer, nonempty.
  apply String.eqb_neq in Hu, Hp. rewrite Hu, Hp. reflexivity.
Qed.

Lemma CreateSocks5ProxyDialer_both_credentials_witness :
  CreateSocks5ProxyDialer (stub_env (reply_with 200) (inl 1))
    (proxy_config "socks5" "user" "secret") (world0 idle)
  = (Panics nil_dereference, world0 idle).
Proof.
  apply CreateSocks5ProxyDialer_both_credentials; discriminate.
Defined.

(** C2 fails on the code.  For a type outside http, https, socks, socks5
    and command, [CreateProxyDialer] returns a [ContextDialer] around a nil
    dialer and a nil error; [Dial] on it panics, and so does [DialContext]
    as soon as its goroutine runs. *)
Theorem CreateProxyDialer_unrecognized_type
  (env : Env) (p : Proxy.t) (w : World) :
  recognized (Proxy.Type_ p) = false ->
  CreateProxyDialer env p w
  = (Returns ({| ContextDialer.Dialer := None |}, None), w) /\
  (forall network addr w',
     ContextDialer_Dial {| ContextDialer.Dialer := None |} network addr w'
     = (Panics nil_dereference, w')) /\
  (forall ctx network addr w',
     winner ctx (sched w') = DialFirst ->
     ContextDialer_DialContext {| ContextDialer.Dialer := None |} ctx network addr w'
     = (Panics nil_dereference, w')).
Proof.
  intros H. apply unrecognized_cases in H as (H1 & H2 & H3).
  repeat split.
  - unfold CreateProxyDialer. now rewrite H1, H2, H3.
  - intros ctx network addr w' Hw.
    unfold ContextDialer_DialContext, assert_DialContext.
    cbn [ContextDialer.Dialer].
    rewrite select_race_dial_first; [reflexivity|exact Hw|discriminate].
Qed.

Lemma CreateProxyDialer_unrecognized_type_witness :
  let env := stub_env (reply_with 200) (inl 1) in
  CreateProxyDialer env (proxy_config "ftp" "" "") (world0 idle)
  = (Returns ({| ContextDialer.Dialer := None |}, None), world0 idle) /\
  ContextDialer_Dial {| ContextDialer.Dialer := None |} "tcp" "host:22" (world0 idle)
  = (Panics nil_dereference, world0 idle) /\
  ContextDialer_DialContext {| ContextDialer.Dialer := None |} background
    "tcp" "host:22" (world0 dial_then_select)
  = (Panics nil_dereference, world0 dial_then_select).
Proof.
  destruct (CreateProxyDialer_unrecognized_type (stub_env (reply_with 200) (inl 1))
              (proxy_config "ftp" "" "") (world0 idle) eq_refl) as (H1 & H2 & H3).
  split; [exact H1|]. split; [apply H2|]. apply H3. reflexivity.
Defined.




(** ** NetPipe *)

Lemma list_set_nth {A} (l : list A) (n : nat) (x y : A) :
  nth_error l n = Some y -> nth_error (list_set l n x) n = Some x.
Proof.
  revert n. induction l as [|h t IH]; intros [|n] H; cbn in *;
    try discriminate; [reflexivity|now apply IH].
Qed.

Lemma list_set_set {A} (l : list A) (n : nat) (x y : A) :
  list_set (list_set l n x) n y = list_set l n y.
Proof.
  revert n. induction l as [|h t IH]; intros [|n]; cbn; try reflexivity.
  now rewrite IH.
Qed.

(** What the factory leaves in the heap for a command tunnel: a [NetPipe]
    whose [Cmd] is nil. *)
Lemma CreateProxyCommandProxyDialer_heap (env : Env) (p : Proxy.t) (w : World) :
  exists w',
    CreateProxyCommandProxyDialer env p w
    = (Returns (Some (NetPipe_iface env (length (netpipes w))), None), w') /\
    nth_error (netpipes w') (length (netpipes w))
    = Some {| NetPipe.Command := Proxy.Command p; NetPipe.Cmd := None |} /\
    sched w' = sched w.
Proof.
  unfold CreateProxyCommandProxyDialer, bind, new_NetPipe, load, store; cbn.
  assert (H : nth_error (netpipes w ++ [{| NetPipe.Command := ""; NetPipe.Cmd := None |}])
                        (length (netpipes w))
              = Some {| NetPipe.Command := ""; NetPipe.Cmd := None |}).
  { rewrite nth_error_app2 by lia. now rewrite Nat.sub_diag. }
  rewrite H. eexists; split; [reflexivity|]. cbn. split; [|reflexivity].
  exact (list_set_nth _ _ _ _ H).
Qed.

(** C7 fails on the code.  When the [select] of [NetPipe.DialContext] sees
    the cancellation before its goroutine has run [Dial], as with a context
    that is already cancelled, [n.Cmd] of a [NetPipe] fresh from the
    factory is still nil and [n.Cmd.Process.Kill()] panics. *)
Theorem NetPipe_DialContext_cancelled_before_start
  (env : Env) (n : nat) (np : NetPipe.t) (ctx : Context) (network addr : string)
  (w : World) :
  nth_error (netpipes w) n = Some np ->
  NetPipe.Cmd np = None ->
  winner ctx (sched w) = CancelFirst ->
  NetPipe_DialContext env n ctx network addr w = (Panics nil_dereference, w).
Proof.
  intros Hn Hcmd Hw. unfold NetPipe_DialContext.
  rewrite select_race_cancel_first by exact Hw.
  unfold NetPipe_select, bind, load. now rewrite Hn, Hcmd.
Qed.

Lemma NetPipe_DialContext_cancelled_before_start_witness :
  let env := stub_env (reply_with 200) (inl 1) in
  let w := snd (CreateProxyDialer env (proxy_config "command" "" "") (world0 idle)) in
  NetPipe_DialContext env 0 cancelled "tcp" "host:22" w = (Panics nil_dereference, w).
Proof.
  exact (NetPipe_DialContext_cancelled_before_start
           (stub_env (reply_with 200) (inl 1)) 0
           {| NetPipe.Command := "nc %h %p"; NetPipe.Cmd := None |}
           cancelled "tcp" "host:22"
           (snd (CreateProxyDialer (stub_env (reply_with 200) (inl 1))
                   (proxy_config "command" "" "") (world0 idle)))
           eq_refl eq_refl eq_refl).
Defined.

(** C8 fails on the code.  When the process fails to start, [NetPipe.Dial]
    returns the error together with the client end of the pipe, which it
    has not closed; the goroutine it started closes the server end only. *)
Theorem NetPipe_Dial_start_failure
  (env : Env) (n : nat) (np : NetPipe.t) (network addr : string) (w : World)
  (e : error) :
  nth_error (netpipes w) n = Some np ->
  Cmd_Start env (tunnel_cmd (NetPipe.Command np) (S (next_conn w))) = inr e ->
  closed (next_conn w) w = false ->
  exists w',
    NetPipe_Dial env n network addr w
    = (Returns (Some (next_conn w), Some e), w') /\
    closed (next_conn w) w' = false /\
    exists w'',
      watcher n (S (next_conn w)) w' = (Returns tt, w'') /\
      closed (next_conn w) w'' = false /\
      closed (S (next_conn w)) w'' = true.
Proof.
  intros Hn Hstart Hopen.
  unfold NetPipe_Dial, NetPipe_Cmd_Start, update_Cmd, watcher, bind,
    fresh_conn, emit, load, store; cbn.
  rewrite Hn; cbn.
  repeat (rewrite ?list_set_set, ?(list_set_nth _ _ _ _ Hn); cbn).
  unfold tunnel_cmd in Hstart; cbn in Hstart. rewrite Hstart; cbn.
  eexists; split; [reflexivity|].
  unfold closed in *; cbn. split; [exact Hopen|].
  repeat (rewrite ?list_set_set, ?(list_set_nth _ _ _ _ Hn); cbn).
  eexists; split; [reflexivity|]. cbn.
  rewrite Hopen, Nat.eqb_refl.
  replace (Nat.eqb (next_conn w) (S (next_conn w))) with false
    by (symmetry; apply Nat.eqb_neq; lia).
  split; reflexivity.
Qed.

Lemma NetPipe_Dial_start_failure_witness :
  let env := stub_env (reply_with 200) (inr (Foreign 2)) in
  let w := snd (CreateProxyDialer env (proxy_config "command" "" "") (world0 idle)) in
  exists w',
    NetPipe_Dial env 0 "tcp" "host:22" w = (Returns (Some 0, Some (Foreign 2)), w') /\
    closed 0 w' = false /\
    exists w'',
      watcher 0 1 w' = (Returns tt, w'') /\
      closed 0 w'' = false /\
      closed 1 w'' = true.
Proof.
  exact (NetPipe_Dial_start_failure
           (stub_env (reply_with 200) (inr (Foreign 2))) 0
           {| NetPipe.Command := "nc %h %p"; NetPipe.Cmd := None |}
           "tcp" "host:22"
           (snd (CreateProxyDialer (stub_env (reply_with 200) (inr (Foreign 2)))
                   (proxy_config "command" "" "") (world0 idle)))
           (Foreign 2) eq_refl eq_refl eq_refl).
Defined.

(** * Further properties *)

(** ** httpProxy.Dial: failures and the request on the wire *)

Section HttpProxyMore.
Variable env : Env.
Variable s : httpProxy.t.
Variables network addr : string.

(** A dial that returns without an error has gone through every step. *)
Lemma httpProxy_Dial_success_steps
  (w w1 w' : World) (c : Conn) (conn : option Conn) :
  iface_Dial (httpProxy.forward s) "tcp" (httpProxy.host s) w
  = (Returns (Some c, None), w1) ->
  httpProxy_Dial env s network addr w = (Returns (conn, None), w') ->
  exists req r,
    Connected env s addr w w1 c req /\
    http_ReadResponse env (Some c) req = Returns (Some r, None) /\
    http.StatusCode r = 200%Z.
Proof.
  intros Hd. unfold httpProxy_Dial, bind at 1. rewrite Hd.
  destruct (url_Parse env ("http://" ++ addr)) as [reqURL [e|]] eqn:Hp;
    [intros [=]|].
  destruct reqURL as [reqURL|]; [|intros [=]].
  destruct (http_NewRequest env "CONNECT" (url_String env (url.set_Scheme reqURL "")))
    as [req0 [e|]] eqn:Hn; [intros [=]|].
  destruct req0 as [req0|]; [|intros [=]].
  fold (connect_request env s req0).
  unfold bind, emit, call; cbn.
  destruct (Request_Write env (connect_request env s req0) (Some c))
    as [[e|]|reason|] eqn:Hw; try (intros [=]; fail).
  destruct (http_ReadResponse env (Some c) (connect_request env s req0))
    as [[[r|] [e|]]|reason|] eqn:Hr; cbn; try (intros [=]; fail).
  destruct (Z.eqb (http.StatusCode r) 200) eqn:Hcode; cbn; [|intros [=]].
  intros _. exists (connect_request env s req0), r.
  split; [|split; [exact Hr|now apply Z.eqb_eq]].
  split; [exact Hd| |exact Hw].
  exists reqURL, req0. repeat split; assumption.
Qed.

(** X1.  [httpProxy.Dial] hands out a connection only when the proxy has
    answered 200: a dial that returns a nil error has read a response with
    status code 200, and the connection it returns is the one it got from
    the forwarder, not closed by the dial. *)
Theorem httpProxy_Dial_success_only_on_200
  (w w1 w' : World) (c : Conn) (conn : option Conn) :
  iface_Dial (httpProxy.forward s) "tcp" (httpProxy.host s) w
  = (Returns (Some c, None), w1) ->
  httpProxy_Dial env s network addr w = (Returns (conn, None), w') ->
  conn = Some c /\
  closed c w' = closed c w1 /\
  exists req r,
    http_ReadResponse env (Some c) req = Returns (Some r, None) /\
    http.StatusCode r = 200%Z /\
    In (EvWrite (Some c) req) (log w').
Proof.
  intros Hd Hret.
  destruct (httpProxy_Dial_success_steps w w1 w' c conn Hd Hret)
    as (req & r & Hc & Hr & Hcode).
  rewrite (httpProxy_Dial_read env s network addr w w1 c req Hc), Hr, Hcode in Hret.
  cbn in Hret. injection Hret as <- <-.
  split; [reflexivity|]. split; [reflexivity|].
  exists req, r. repeat split; try assumption.
  cbn. right; right; left; reflexivity.
Qed.

(** X2.  Once the forwarder has produced a connection, a dial that returns
    either returns that connection and no error, leaving it open, or
    returns an error and no connection, having closed it. *)
Theorem httpProxy_Dial_closes_on_error
  (w w1 w' : World) (c : Conn) (conn : option Conn) (e : option error) :
  iface_Dial (httpProxy.forward s) "tcp" (httpProxy.host s) w
  = (Returns (Some c, None), w1) ->
  httpProxy_Dial env s network addr w = (Returns (conn, e), w') ->
  (conn = Some c /\ e = None /\ closed c w' = closed c w1) \/
  (conn = None /\ e <> None /\ closed c w' = true).
Proof.
  intros Hd. unfold httpProxy_Dial, bind at 1. rewrite Hd.
  assert (Hclose : forall l, existsb (event_eqb_close c) (EvClose c :: l) = true).
  { intros l; cbn. now rewrite Nat.eqb_refl. }
  destruct (url_Parse env ("http://" ++ addr)) as [reqURL [e1|]].
  { cbn. intros [= <- <- <-]. right. repeat split; [discriminate|apply Hclose]. }
  destruct reqURL as [reqURL|]; [|intros [=]].
  destruct (http_NewRequest env "CONNECT" (url_String env (url.set_Scheme reqURL "")))
    as [req0 [e1|]].
  { cbn. intros [= <- <- <-]. right. repeat split; [discriminate|apply Hclose]. }
  destruct req0 as [req0|]; [|intros [=]].
  fold (connect_request env s req0).
  unfold bind, emit, call; cbn.
  destruct (Request_Write env (connect_request env s req0) (Some c))
    as [[e1|]|reason|]; try (intros [=]; fail).
  { intros [= <- <- <-]. right. repeat split; [discriminate|apply Hclose]. }
  destruct (http_ReadResponse env (Some c) (connect_request env s req0))
    as [[[r|] [e1|]]|reason|]; cbn; try (intros [=]; fail).
  { intros [= <- <- <-]. right. repeat split; [discriminate|apply Hclose]. }
  destruct (Z.eqb (http.StatusCode r) 200); cbn.
  - intros [= <- <- <-]. left. repeat split.
  - intros [= <- <- <-]. right. repeat split; [discriminate|apply Hclose].
Qed.
End HttpProxyMore.

Lemma httpProxy_Dial_success_only_on_200_witness :
  Some 0 = Some 0 /\
  closed 0 (logged (EvBodyClose 0)
              (after_request
                 {| log := []; next_conn := 1; netpipes := []; sched := idle |} 0
                 (connect_request (stub_env (reply_with 200) (inl 1)) via_proxy
                    {| http.Method := "CONNECT"; http.Target := "http://target:22";
                       http.Close := true; http.Header := [] |})))
  = closed 0 {| log := []; next_conn := 1; netpipes := []; sched := idle |} /\
  exists req r,
    http_ReadResponse (stub_env (reply_with 200) (inl 1)) (Some 0) req
    = Returns (Some r, None) /\
    http.StatusCode r = 200%Z /\
    In (EvWrite (Some 0) req)
       (log (logged (EvBodyClose 0)
               (after_request
                  {| log := []; next_conn := 1; netpipes := []; sched := idle |} 0
                  (connect_request (stub_env (reply_with 200) (inl 1)) via_proxy
                     {| http.Method := "CONNECT"; http.Target := "http://target:22";
                        http.Close := true; http.Header := [] |})))).
Proof.
  exact (httpProxy_Dial_success_only_on_200 (stub_env (reply_with 200) (inl 1))
           via_proxy "tcp" "target:22" (world0 idle) _ _ 0 (Some 0)
           eq_refl eq_refl).
Defined.

Lemma httpProxy_Dial_closes_on_error_witness :
  (@None Conn = Some 0 /\ Some (status_error 403) = None /\
   closed 0 (logged (EvClose 0) (logged (EvBodyClose 0)
              (after_request
                 {| log := []; next_conn := 1; netpipes := []; sched := idle |} 0
                 (connect_request (stub_env (reply_with 403) (inl 1)) via_proxy
                    {| http.Method := "CONNECT"; http.Target := "http://target:22";
                       http.Close := true; http.Header := [] |}))))
   = closed 0 {| log := []; next_conn := 1; netpipes := []; sched := idle |}) \/
  (@None Conn = None /\ Some (status_error 403) <> None /\
   closed 0 (logged (EvClose 0) (logged (EvBodyClose 0)
              (after_request
                 {| log := []; next_conn := 1; netpipes := []; sched := idle |} 0
                 (connect_request (stub_env (reply_with 403) (inl 1)) via_proxy
                    {| http.Method := "CONNECT"; http.Target := "http://target:22";
                       http.Close := true; http.Header := [] |}))))
   = true).
Proof.
  exact (httpProxy_Dial_closes_on_error (stub_env (reply_with 403) (inl 1))
           via_proxy "tcp" "target:22" (world0 idle) _ _ 0 None
           (Some (status_error 403)) eq_refl eq_refl).
Defined.







Lemma parse_format_d (n : Z) : parse_d (format_d n) = Some n.
Proof.
  unfold parse_d, format_d.
  rewrite NilZero.isi.
  - cbn. now rewrite DecimalZ.of_to.
  - destruct n; cbn; try discriminate.
    intros [= H]. now apply (DecimalPos.Unsigned.to_uint_nonnil p).
  - destruct n; cbn; try discriminate.
    intros [= H]. now apply (DecimalPos.Unsigned.to_uint_nonnil p).
Qed.

Lemma append_bracket_inj (x y : string) : x ++ "]" = y ++ "]" -> x = y.
Proof.
  revert y. induction x as [|ch x IH]; intros [|ch' y] Hxy; cbn in *.
  - reflexivity.
  - injection Hxy as <- Hxy. now destruct y.
  - injection Hxy as -> Hxy. now destruct x.
  - injection Hxy as <- Hxy. f_equal. now apply IH.
Qed.

(** X4.  The decimal in the error message determines the status code:
    dials refused with different status codes return different errors. *)
Theorem status_error_injective (code code' : Z) :
  status_error code = status_error code' -> code = code'.
Proof.
  unfold status_error. intros [= H].
  apply append_bracket_inj in H.
  pose proof (parse_format_d code) as H1.
  rewrite H, parse_format_d in H1. now injection H1.
Qed.

Lemma status_error_injective_witness : 403%Z = 403%Z.
Proof. exact (status_error_injective 403 403 eq_refl). Defined.

(** X5.  When the target address does not parse, [httpProxy.Dial] closes
    the connection to the proxy without writing anything to it, and
    returns the parse error; when the write of the request fails, it closes
    the connection without reading from it, and returns the write error. *)
Theorem httpProxy_Dial_early_failure
  (env : Env) (s : httpProxy.t) (network addr : string) (w w1 : World) (c : Conn)
  (e : error) :
  iface_Dial (httpProxy.forward s) "tcp" (httpProxy.host s) w
  = (Returns (Some c, None), w1) ->
  (forall u, url_Parse env ("http://" ++ addr) = (u, Some e) ->
     httpProxy_Dial env s network addr w
     = (Returns (None, Some e), logged (EvClose c) w1)) /\
  (forall reqURL req0,
     url_Parse env ("http://" ++ addr) = (Some reqURL, None) ->
     http_NewRequest env "CONNECT" (url_String env (url.set_Scheme reqURL ""))
     = (Some req0, None) ->
     Request_Write env (connect_request env s req0) (Some c) = Returns (Some e) ->
     httpProxy_Dial env s network addr w
     = (Returns (None, Some e),
        logged (EvClose c)
          (logged (EvWrite (Some c) (connect_request env s req0)) w1))).
Proof.
  intros Hd. split.
  - intros u Hp. unfold httpProxy_Dial, bind at 1. rewrite Hd, Hp. reflexivity.
  - intros reqURL req0 Hp Hn Hw.
    unfold httpProxy_Dial, bind at 1. rewrite Hd, Hp, Hn.
    fold (connect_request env s req0).
    unfold bind, emit, call; cbn. rewrite Hw. reflexivity.
Qed.

Lemma httpProxy_Dial_early_failure_witness :
  let w1 := {| log := []; next_conn := 1; netpipes := []; sched := idle |} in
  httpProxy_Dial (stub_env_failing (Some (Foreign 5)) None) via_proxy
    "tcp" "target:22" (world0 idle)
  = (Returns (None, Some (Foreign 5)), logged (EvClose 0) w1) /\
  httpProxy_Dial (stub_env_failing None (Some (Foreign 6))) via_proxy
    "tcp" "target:22" (world0 idle)
  = (Returns (None, Some (Foreign 6)),
     logged (EvClose 0)
       (logged (EvWrite (Some 0)
                  (connect_request (stub_env_failing None (Some (Foreign 6))) via_proxy
                     {| http.Method := "CONNECT"; http.Target := "http://target:22";
                        http.Close := true; http.Header := [] |})) w1)).
Proof.
  split.
  - exact (proj1 (httpProxy_Dial_early_failure
                    (stub_env_failing (Some (Foreign 5)) None) via_proxy
                    "tcp" "target:22" (world0 idle) _ 0 (Foreign 5) eq_refl)
             None eq_refl).
  - exact (proj2 (httpProxy_Dial_early_failure
                    (stub_env_failing None (Some (Foreign 6))) via_proxy
                    "tcp" "target:22" (world0 idle) _ 0 (Foreign 6) eq_refl)
             _ _ eq_refl eq_refl eq_refl).
Defined.

(** [httpProxy.Dial] never returns a connection together with an error,
    whatever its forwarder does. *)
Lemma httpProxy_Dial_never_both
  (env : Env) (s : httpProxy.t) (network addr : string) (w w' : World)
  (conn : option Conn) (e : option error) :
  httpProxy_Dial env s network addr w = (Returns (conn, e), w') ->
  conn = None \/ e = None.
Proof.
  unfold httpProxy_Dial, bind at 1.
  destruct (iface_Dial (httpProxy.forward s) "tcp" (httpProxy.host s) w)
    as [[[c [e0|]]|reason|] w1]; try (intros [=]; auto; fail).
  destruct (url_Parse env ("http://" ++ addr)) as [reqURL [e1|]].
  { unfold bind, Conn_Close. destruct c; intros [=]; auto. }
  destruct reqURL as [reqURL|]; [|intros [=]].
  destruct (http_NewRequest env "CONNECT" (url_String env (url.set_Scheme reqURL "")))
    as [req0 [e1|]].
  { unfold bind, Conn_Close. destruct c; intros [=]; auto. }
  destruct req0 as [req0|]; [|intros [=]].
  fold (connect_request env s req0).
  unfold bind, emit, call; cbn.
  destruct (Request_Write env (connect_request env s req0) c)
    as [[e1|]|reason|]; try (intros [=]; fail).
  { unfold Conn_Close. destruct c; intros [=]; auto. }
  destruct (http_ReadResponse env c (connect_request env s req0))
    as [[[r|] [e1|]]|reason|]; cbn; try (intros [=]; fail).
  { unfold Conn_Close. destruct c; intros [=]; auto. }
  destruct (Z.eqb (http.StatusCode r) 200); cbn; [intros [=]; auto|].
  unfold Conn_Close. destruct c; intros [=]; auto.
Qed.

Lemma httpProxy_Dial_relayed
  (env : Env) (s : httpProxy.t) (network addr : string) (w : World) :
  relayed (httpProxy_Dial env s network addr w) = httpProxy_Dial env s network addr w.
Proof.
  destruct (httpProxy_Dial env s network addr w) as [[[conn [e|]]|reason|] w'] eqn:H;
    try reflexivity.
  destruct (httpProxy_Dial_never_both _ _ _ _ _ _ _ _ H) as [->|[=]]. reflexivity.
Qed.

(** X6.  Behind a [ContextDialer], an [httpProxy] has no [DialContext] of
    its own, so the fallback runs; with a context that is never cancelled,
    [DialContext] does and returns exactly what [httpProxy.Dial] does,
    since that dial never returns a connection together with an error. *)
Theorem ContextDialer_httpProxy_never_cancelled
  (env : Env) (s : httpProxy.t) (ctx : Context) (network addr : string) (w : World) :
  done ctx = false ->
  existsb is_CtxCancel (events (sched w)) = false ->
  existsb is_GoDial (events (sched w)) = true ->
  ContextDialer_DialContext {| ContextDialer.Dialer := Some (httpProxy_iface env s) |}
    ctx network addr w
  = httpProxy_Dial env s network addr w.
Proof.
  intros Hdone Hc Hd.
  unfold ContextDialer_DialContext, assert_DialContext.
  cbn [ContextDialer.Dialer httpProxy_iface DialContext iface_Dial Dial].
  rewrite select_race_never_cancelled by assumption.
  rewrite dial_won_ContextDialer. apply httpProxy_Dial_relayed.
Qed.

Lemma ContextDialer_httpProxy_never_cancelled_witness :
  let env := stub_env (reply_with 403) (inl 1) in
  ContextDialer_DialContext
    {| ContextDialer.Dialer := Some (httpProxy_iface env via_proxy) |}
    background "tcp" "target:22" (world0 dial_then_select)
  = httpProxy_Dial env via_proxy "tcp" "target:22" (world0 dial_then_select).
Proof.
  exact (ContextDialer_httpProxy_never_cancelled (stub_env (reply_with 403) (inl 1))
           via_proxy background "tcp" "target:22" (world0 dial_then_select)
           eq_refl eq_refl eq_refl).
Defined.

(** ** The select race under every schedule *)

Section RaceSound.
Variable dial : M DialResult.
Variable handler : Case -> M DialResult.
Variable w : World.

Lemma race_step_inv (e : RaceEvent) (st : Chans) (wc : World) :
  race_inv dial w st wc ->
  match race_step dial e st wc with
  | (Returns st', wc') =>
      race_inv dial w st' wc' /\
      (ctxDone st' = true -> ctxDone st = true \/ is_CtxCancel e = true)
  | (Panics _, _) => True
  | (Blocks, _) => False
  end.
Proof.
  unfold race_inv. destruct e; cbn.
  - destruct (dialed st) eqn:Hd.
    + cbn. rewrite Hd. intros H. split; [exact H|auto].
    + intros (-> & Hc & He). unfold dial_goroutine.
      destruct st as [cc ec cd dd]; cbn in *. subst.
      destruct (dial w) as [[[conn [e|]]|reason|] w1]; cbn; auto.
  - unfold ret; cbn. intros H. split; [|auto].
    destruct (dialed st); [|exact H].
    destruct (dial w) as [[[conn [e|]]|reason|] w1]; try exact H;
      destruct H as [-> H]; split; try reflexivity;
      rewrite H at 1; reflexivity.
Qed.

Lemma race_steps_inv (evs : list RaceEvent) (st : Chans) (wc : World) :
  race_inv dial w st wc ->
  match race_steps dial evs st wc with
  | (Returns st', wc') =>
      race_inv dial w st' wc' /\
      (ctxDone st' = true -> ctxDone st = true \/ existsb is_CtxCancel evs = true)
  | (Panics _, _) => True
  | (Blocks, _) => False
  end.
Proof.
  revert st wc. induction evs as [|e evs IH]; intros st wc Hinv; cbn.
  - split; [exact Hinv|auto].
  - unfold bind. pose proof (race_step_inv e st wc Hinv) as Hs.
    destruct (race_step dial e st wc) as [[st1|reason|] w1]; [|exact I|exact Hs].
    destruct Hs as [Hinv1 Hd1]. specialize (IH st1 w1 Hinv1).
    destruct (race_steps dial evs st1 w1) as [[st2|reason|] w2]; [|exact I|exact IH].
    destruct IH as [Hinv2 Hd2]. split; [exact Hinv2|].
    intros H. cbn [existsb].
    destruct (Hd2 H) as [H1|H1]; [|right; rewrite H1; apply orb_true_r].
    destruct (Hd1 H1) as [H0|H0]; [left; exact H0|right; now rewrite H0].
Qed.

Lemma race_blocked_taken (evs : list RaceEvent) (st : Chans) (wc : World) :
  race_inv dial w st wc ->
  taken dial handler w st evs (race_blocked dial handler evs st wc).
Proof.
  revert st wc. induction evs as [|e evs IH]; intros st wc Hinv; cbn.
  - exact I.
  - unfold bind. pose proof (race_step_inv e st wc Hinv) as Hs.
    destruct (race_step dial e st wc) as [[st1|reason|] w1]; [|exact I|exact I].
    destruct Hs as [Hinv1 Hd1].
    destruct (ready st1) as [|c cs] eqn:Hr.
    + specialize (IH st1 w1 Hinv1). unfold taken in *.
      destruct (race_blocked dial handler evs st1 w1) as [[r|reason|] w2];
        try exact I.
      destruct IH as (st' & wc' & c & Hi & Hin & Hres & Hd).
      exists st', wc', c.
      split; [exact Hi|]. split; [exact Hin|]. split; [exact Hres|].
      intros H. cbn [existsb].
      destruct (Hd H) as [H1|H1]; [|right; rewrite H1; apply orb_true_r].
      destruct (Hd1 H1) as [H0|H0]; [left; exact H0|right; now rewrite H0].
    + unfold taken. destruct (handler c w1) as [[r|reason|] w2] eqn:Hh; try exact I.
      exists st1, w1, c.
      split; [exact Hinv1|]. split; [rewrite Hr; now left|]. split; [now rewrite Hh|].
      intros H. cbn [existsb].
      destruct (Hd1 H) as [H0|H0]; [left; exact H0|right; now rewrite H0].
Qed.

Lemma choose_In (pick : nat) (cases : list Case) (c : Case) :
  choose pick cases = Some c -> In c cases.
Proof. unfold choose. apply nth_error_In. Qed.

Lemma select_race_taken (ctx : Context) :
  taken dial handler w (chans_init ctx) (events (sched w)) (select_race dial handler ctx w).
Proof.
  unfold select_race, bind, get_sched.
  assert (Hinit : race_inv dial w (chans_init ctx) w) by (now unfold race_inv; cbn).
  pose proof (race_steps_inv (before_select (sched w)) _ _ Hinit) as Hs.
  destruct (race_steps dial (before_select (sched w)) (chans_init ctx) w)
    as [[st1|reason|] w1]; [|exact I|exact I].
  destruct Hs as [Hinv1 Hd1].
  destruct (choose (pick (sched w)) (ready st1)) as [c|] eqn:Hc.
  - unfold taken. destruct (handler c w1) as [[r|reason|] w2] eqn:Hh; try exact I.
    exists st1, w1, c.
    split; [exact Hinv1|]. split; [now apply choose_In in Hc|].
    split; [now rewrite Hh|].
    intros H. destruct (Hd1 H) as [H0|H0]; [left; exact H0|right].
    unfold events. rewrite existsb_app, H0. reflexivity.
  - pose proof (race_blocked_taken (while_blocked (sched w)) st1 w1 Hinv1) as Hb.
    unfold taken in *.
    destruct (race_blocked dial handler (while_blocked (sched w)) st1 w1)
      as [[r|reason|] w2]; try exact I.
    destruct Hb as (st' & wc' & c & Hi & Hin & Hres & Hd).
    exists st', wc', c.
    split; [exact Hi|]. split; [exact Hin|]. split; [exact Hres|].
    intros H. unfold events. rewrite existsb_app.
    destruct (Hd H) as [H1|H1]; [|right; rewrite H1; apply orb_true_r].
    destruct (Hd1 H1) as [H0|H0]; [left; exact H0|right; now rewrite H0].
Qed.
End RaceSound.

Lemma ready_In (st : Chans) (c : Case) :
  In c (ready st) ->
  match c with
  | RecvConn conn => connChan st = Some conn
  | RecvErr e => errChan st = Some e
  | RecvDone => ctxDone st = true
  end.
Proof.
  unfold ready. destruct st as [[cc|] [ec|] [|] dd]; cbn;
    intros H; repeat (destruct H as [H|H]; [subst c; reflexivity|]);
    destruct H.
Qed.

(** On the way to the [select], the goroutine's turn and the cancellations
    may come in any order: the channels end up holding what the dial
    returned, and [ctx.Done()] is closed if any cancellation came. *)
Lemma race_steps_with_dial (dial : M DialResult) (evs : list RaceEvent)
  (st : Chans) (w : World) :
  dialed st = false -> existsb is_GoDial evs = true ->
  race_steps dial evs st w =
  match dial w with
  | (Panics reason, w1) => (Panics reason, w1)
  | (o, w1) =>
      (Returns (let st1 := deliver (mark_dialed st) o in
                if existsb is_CtxCancel evs then close_done st1 else st1), w1)
  end.
Proof.
  revert st. induction evs as [|[|] evs IH]; intros st Hd Hg; cbn in *.
  - discriminate.
  - unfold bind; cbn. rewrite Hd. unfold dial_goroutine.
    assert (Hrest : forall st1 w1, dialed st1 = true ->
              race_steps dial evs st1 w1
              = (Returns (if existsb is_CtxCancel evs then close_done st1 else st1), w1)).
    { clear. induction evs as [|[|] evs IH]; intros st1 w1 H1; cbn.
      - reflexivity.
      - unfold bind; cbn. rewrite H1. cbn. now apply IH.
      - unfold bind; cbn. rewrite IH by exact H1.
        destruct (existsb is_CtxCancel evs); reflexivity. }
    destruct (dial w) as [[[conn [e|]]|reason|] w1]; cbn;
      try reflexivity; now apply Hrest.
  - unfold bind; cbn. rewrite (IH (close_done st) Hd Hg).
    destruct (dial w) as [[[conn [e|]]|reason|] w1]; cbn; try reflexivity;
      destruct (existsb is_CtxCancel evs); reflexivity.
Qed.

(** ** ContextDialer.DialContext under every schedule *)

(** X7.  Whatever the schedule, when the fallback of
    [ContextDialer.DialContext] returns, it returns either what the wrapped
    [Dial] returned (its error alone, or else its connection), in the world
    that the dial left, or the error of the context, and that only if the
    context was cancelled; it never returns a connection together with an
    error. *)
Theorem ContextDialer_DialContext_sound
  (d : DialerObj) (ctx : Context) (network addr : string) (w w' : World)
  (r : DialResult) :
  DialContext d = None ->
  ContextDialer_DialContext {| ContextDialer.Dialer := Some d |} ctx network addr w
  = (Returns r, w') ->
  ((exists conn e,
      Dial d network addr w = (Returns (conn, e), w') /\ r = relay conn e) \/
   (r = (None, Some (err ctx)) /\
    (done ctx = true \/ existsb is_CtxCancel (events (sched w)) = true))) /\
  (fst r = None \/ snd r = None).
Proof.
  intros Hn Hret.
  unfold ContextDialer_DialContext, assert_DialContext in Hret.
  cbn [ContextDialer.Dialer iface_Dial] in Hret. rewrite Hn in Hret.
  pose proof (select_race_taken (Dial d network addr) (ContextDialer_select ctx) w ctx)
    as Ht.
  rewrite Hret in Ht. destruct Ht as (st' & wc' & c & Hinv & Hin & Hres & Hd).
  apply ready_In in Hin. unfold race_inv in Hinv.
  destruct c as [conn|e|]; cbn in Hres; injection Hres as -> ->.
  - split; [left|now right].
    destruct (dialed st'); [|destruct Hinv as (_ & Hc & _); congruence].
    destruct (Dial d network addr w) as [[[conn' [e|]]|reason|] w1];
      try (destruct Hinv as [-> Hst]; rewrite Hst in Hin; cbn in Hin);
      try discriminate; [|destruct Hinv].
    injection Hin as <-. exists conn', None. now split.
  - split; [left|now left].
    destruct (dialed st'); [|destruct Hinv as (_ & _ & He); congruence].
    destruct (Dial d network addr w) as [[[conn' [e'|]]|reason|] w1];
      try (destruct Hinv as [-> Hst]; rewrite Hst in Hin; cbn in Hin);
      try discriminate; [|destruct Hinv].
    injection Hin as <-. exists conn', (Some e'). now split.
  - split; [right|now left]. split; [reflexivity|]. exact (Hd Hin).
Qed.

Lemma ContextDialer_DialContext_sound_witness :
  ((exists conn e,
      Dial (fixed_dialer (Some 7, Some (Foreign 1))) "tcp" "host:22"
        (world0 (both_ready 0))
      = (Returns (conn, e), world0 (both_ready 0)) /\
      (None, Some (Foreign 1)) = relay conn e) \/
   ((@None Conn, Some (Foreign 1)) = (None, Some (err cancelled)) /\
    (done cancelled = true \/
     existsb is_CtxCancel (events (sched (world0 (both_ready 0)))) = true))) /\
  (fst (@None Conn, Some (Foreign 1)) = None \/
   snd (@None Conn, Some (Foreign 1)) = None).
Proof.
  exact (ContextDialer_DialContext_sound (fixed_dialer (Some 7, Some (Foreign 1)))
           cancelled "tcp" "host:22" (world0 (both_ready 0)) (world0 (both_ready 0))
           (None, Some (Foreign 1)) eq_refl eq_refl).
Defined.

(** X8.  When the dial has completed and the context is cancelled before
    the [select] is evaluated, both cases are ready and Go's pick decides:
    an even pick returns the dial's result, an odd one the error of the
    context, in either case after the effects of the dial. *)
Theorem ContextDialer_DialContext_tie
  (d : DialerObj) (ctx : Context) (network addr : string) (w w1 : World)
  (conn : option Conn) (e : option error) :
  DialContext d = None ->
  winner ctx (sched w) = Tie ->
  Dial d network addr w = (Returns (conn, e), w1) ->
  ContextDialer_DialContext {| ContextDialer.Dialer := Some d |} ctx network addr w
  = (Returns (if Nat.eqb (pick (sched w) mod 2) 0
              then relay conn e else (None, Some (err ctx))), w1).
Proof.
  intros Hn Hw Hdial.
  unfold ContextDialer_DialContext, assert_DialContext.
  cbn [ContextDialer.Dialer iface_Dial]. rewrite Hn.
  unfold select_race, bind, get_sched. unfold winner in Hw.
  destruct (existsb is_GoDial (before_select (sched w))) eqn:Hg;
    destruct (done ctx || existsb is_CtxCancel (before_select (sched w))) eqn:Hc;
    try discriminate.
  2:{ destruct (while_blocked (sched w)) as [|[|] ?]; discriminate. }
  rewrite race_steps_with_dial by (exact Hg || reflexivity). rewrite Hdial.
  assert (Hpair : forall a b : Case,
            choose (pick (sched w)) [a; b]
            = Some (if Nat.eqb (pick (sched w) mod 2) 0 then a else b)).
  { intros a b. unfold choose. cbn [length].
    assert (Hmod : pick (sched w) mod 2 < 2) by (apply Nat.mod_upper_bound; lia).
    destruct (pick (sched w) mod 2) as [|[|k]]; [reflexivity|reflexivity|lia]. }
  assert (Hdone : ctxDone (if existsb is_CtxCancel (before_select (sched w))
                           then close_done (mark_dialed (chans_init ctx))
                           else mark_dialed (chans_init ctx)) = true).
  { destruct (existsb is_CtxCancel (before_select (sched w))); [reflexivity|].
    rewrite orb_false_r in Hc. exact Hc. }
  remember (Nat.eqb (pick (sched w) mod 2) 0) as even eqn:Heven. clear Heven.
  destruct e as [e|]; cbn [deliver relay];
    destruct (existsb is_CtxCancel (before_select (sched w))); cbn in Hdone;
    unfold ready; cbn; rewrite ?Hdone; cbn; rewrite Hpair;
    destruct even; reflexivity.
Qed.

Lemma ContextDialer_DialContext_tie_witness :
  ContextDialer_DialContext
    {| ContextDialer.Dialer := Some (fixed_dialer (Some 7, None)) |}
    background "tcp" "host:22" (world0 (both_ready 3))
  = (Returns (if Nat.eqb (pick (sched (world0 (both_ready 3))) mod 2) 0
              then relay (Some 7) None else (None, Some (err background))),
     world0 (both_ready 3)).
Proof.
  exact (ContextDialer_DialContext_tie (fixed_dialer (Some 7, None)) background
           "tcp" "host:22" (world0 (both_ready 3)) (world0 (both_ready 3))
           (Some 7) None eq_refl eq_refl eq_refl).
Defined.

(** ** NetPipe: the dial, its watcher and the cancellation *)

Lemma NetPipe_Dial_run
  (env : Env) (n : nat) (np : NetPipe.t) (network addr : string) (w : World) :
  nth_error (netpipes w) n = Some np ->
  NetPipe_Dial env n network addr w
  = (Returns (Some (next_conn w), Dial_error env np w), after_Dial env n np w).
Proof.
  intros Hn.
  unfold NetPipe_Dial, NetPipe_Cmd_Start, update_Cmd, bind,
    fresh_conn, emit, load, store, after_Dial, Dial_error; cbn.
  rewrite Hn; cbn.
  repeat (rewrite ?list_set_set, ?(list_set_nth _ _ _ _ Hn); cbn).
  unfold tunnel_cmd; cbn.
  destruct (Cmd_Start env _) as [pid|e]; cbn.
  - unfold set_netpipes; cbn. now rewrite !list_set_set.
  - reflexivity.
Qed.

(** X9.  When the command starts, [NetPipe.Dial] returns a fresh client end
    with a nil error, whatever network and address it is given: the
    command is [sh -c] of the configured string with its standard input
    and output on the server end, [n.Cmd] holds the new process in place
    of any earlier one, a watcher is started, and neither end is closed. *)
Theorem NetPipe_Dial_started
  (env : Env) (n : nat) (np : NetPipe.t) (network addr : string) (w : World)
  (pid : nat) :
  nth_error (netpipes w) n = Some np ->
  Cmd_Start env (tunnel_cmd (NetPipe.Command np) (S (next_conn w))) = inl pid ->
  exists w',
    NetPipe_Dial env n network addr w = (Returns (Some (next_conn w), None), w') /\
    nth_error (netpipes w') n
    = Some (started_pipe (NetPipe.Command np) (S (next_conn w)) pid) /\
    exec.Args (tunnel_cmd (NetPipe.Command np) (S (next_conn w)))
    = ["sh"; "-c"; NetPipe.Command np] /\
    next_conn w' = S (S (next_conn w)) /\
    log w' = EvGo (Watcher n (S (next_conn w)))
               :: EvStart ["sh"; "-c"; NetPipe.Command np] (Some pid)
               :: EvPipe (next_conn w) (S (next_conn w)) :: log w.
Proof.
  intros Hn Hs. exists (after_Dial env n np w).
  rewrite (NetPipe_Dial_run env n np network addr w Hn).
  unfold Dial_error, after_Dial. rewrite Hs. cbn.
  split; [reflexivity|]. split; [exact (list_set_nth _ _ _ _ Hn)|].
  repeat split.
Qed.

Lemma NetPipe_Dial_started_witness :
  let env := stub_env (reply_with 200) (inl 42) in
  let w := snd (CreateProxyDialer env (proxy_config "command" "" "") (world0 idle)) in
  exists w',
    NetPipe_Dial env 0 "tcp" "host:22" w = (Returns (Some 0, None), w') /\
    nth_error (netpipes w') 0 = Some (started_pipe "nc %h %p" 1 42) /\
    exec.Args (tunnel_cmd "nc %h %p" 1) = ["sh"; "-c"; "nc %h %p"] /\
    next_conn w' = 2 /\
    log w' = EvGo (Watcher 0 1) :: EvStart ["sh"; "-c"; "nc %h %p"] (Some 42)
               :: EvPipe 0 1 :: log w.
Proof.
  exact (NetPipe_Dial_started (stub_env (reply_with 200) (inl 42)) 0
           {| NetPipe.Command := "nc %h %p"; NetPipe.Cmd := None |}
           "tcp" "host:22"
           (snd (CreateProxyDialer (stub_env (reply_with 200) (inl 42))
                   (proxy_config "command" "" "") (world0 idle)))
           42 eq_refl eq_refl).
Defined.



Lemma select_race_tie (dial : M DialResult) (handler : Case -> M DialResult)
  (ctx : Context) (w w1 : World) (conn : option Conn) (e : option error) :
  winner ctx (sched w) = Tie ->
  dial w = (Returns (conn, e), w1) ->
  select_race dial handler ctx w
  = handler (if Nat.eqb (pick (sched w) mod 2) 0
             then match e with Some e' => RecvErr e' | None => RecvConn conn end
             else RecvDone) w1.
Proof.
  intros Hw Hdial.
  unfold select_race, bind, get_sched. unfold winner in Hw.
  destruct (existsb is_GoDial (before_select (sched w))) eqn:Hg;
    destruct (done ctx || existsb is_CtxCancel (before_select (sched w))) eqn:Hc;
    try discriminate.
  2:{ destruct (while_blocked (sched w)) as [|[|] ?]; discriminate. }
  rewrite race_steps_with_dial by (exact Hg || reflexivity). rewrite Hdial.
  assert (Hpair : forall a b : Case,
            choose (pick (sched w)) [a; b]
            = Some (if Nat.eqb (pick (sched w) mod 2) 0 then a else b)).
  { intros a b. unfold choose. cbn [length].
    assert (Hmod : pick (sched w) mod 2 < 2) by (apply Nat.mod_upper_bound; lia).
    destruct (pick (sched w) mod 2) as [|[|k]]; [reflexivity|reflexivity|lia]. }
  assert (Hdone : ctxDone (if existsb is_CtxCancel (before_select (sched w))
                           then close_done (mark_dialed (chans_init ctx))
                           else mark_dialed (chans_init ctx)) = true).
  { destruct (existsb is_CtxCancel (before_select (sched w))); [reflexivity|].
    rewrite orb_false_r in Hc. exact Hc. }
  remember (Nat.eqb (pick (sched w) mod 2) 0) as even eqn:Heven. clear Heven.
  destruct e as [e|]; cbn [deliver];
    destruct (existsb is_CtxCancel (before_select (sched w))); cbn in Hdone;
    unfold ready; cbn; rewrite ?Hdone; cbn; rewrite Hpair;
    destruct even; reflexivity.
Qed.

(** X11.  When the command has been started and the [select] of
    [NetPipe.DialContext] then takes the cancellation, the process just
    started is killed and the error of the context is returned; the client
    end of the pipe is neither returned nor closed. *)
Theorem NetPipe_DialContext_kills_started
  (env : Env) (n : nat) (np : NetPipe.t) (ctx : Context) (network addr : string)
  (w : World) (pid : nat) :
  nth_error (netpipes w) n = Some np ->
  Cmd_Start env (tunnel_cmd (NetPipe.Command np) (S (next_conn w))) = inl pid ->
  exited pid w = false ->
  winner ctx (sched w) = Tie ->
  pick (sched w) mod 2 = 1 ->
  exists w',
    NetPipe_DialContext env n ctx network addr w
    = (Returns (None, Some (err ctx)), w') /\
    log w' = EvKill pid :: EvGo (Watcher n (S (next_conn w)))
               :: EvStart ["sh"; "-c"; NetPipe.Command np] (Some pid)
               :: EvPipe (next_conn w) (S (next_conn w)) :: log w /\
    exited pid w' = true /\
    closed (next_conn w) w' = closed (next_conn w) w.
Proof.
  intros Hn Hs Hex Hw Hp. unfold NetPipe_DialContext.
  rewrite (select_race_tie _ _ ctx w (after_Dial env n np w)
             (Some (next_conn w)) (Dial_error env np w) Hw
             (NetPipe_Dial_run env n np network addr w Hn)).
  rewrite Hp. cbn [Nat.eqb].
  unfold NetPipe_select, bind, load, after_Dial. rewrite Hs. cbn.
  rewrite (list_set_nth _ _ _ _ Hn). cbn.
  unfold exited in *. cbn. rewrite Hex. cbn.
  eexists. split; [reflexivity|]. cbn. split; [reflexivity|].
  split; [now rewrite Nat.eqb_refl|reflexivity].
Qed.

Lemma NetPipe_DialContext_kills_started_witness :
  let env := stub_env (reply_with 200) (inl 42) in
  let w := with_sched
             (snd (CreateProxyDialer env (proxy_config "command" "" "") (world0 idle)))
             (both_ready 1) in
  exists w',
    NetPipe_DialContext env 0 background "tcp" "host:22" w
    = (Returns (None, Some (err background)), w') /\
    log w' = EvKill 42 :: EvGo (Watcher 0 1)
               :: EvStart ["sh"; "-c"; "nc %h %p"] (Some 42)
               :: EvPipe 0 1 :: log w /\
    exited 42 w' = true /\
    closed 0 w' = closed 0 w.
Proof.
  exact (NetPipe_DialContext_kills_started (stub_env (reply_with 200) (inl 42)) 0
           {| NetPipe.Command := "nc %h %p"; NetPipe.Cmd := None |}
           background "tcp" "host:22"
           (with_sched
              (snd (CreateProxyDialer (stub_env (reply_with 200) (inl 42))
                      (proxy_config "command" "" "") (world0 idle)))
              (both_ready 1))
           42 eq_refl eq_refl eq_refl eq_refl eq_refl).
Defined.

(** X12.  When the [select] of [NetPipe.DialContext] takes the cancellation
    before its own goroutine has dialled, [n.Cmd] still holds the process
    of an earlier dial: that process is killed if it is still running, and
    if it has already ended nothing is killed and the call returns all the
    same the error of the context. *)
Theorem NetPipe_DialContext_cancel_with_earlier_process
  (env : Env) (n : nat) (command : string) (srv : Conn) (pid : nat)
  (ctx : Context) (network addr : string) (w : World) :
  nth_error (netpipes w) n = Some (started_pipe command srv pid) ->
  winner ctx (sched w) = CancelFirst ->
  NetPipe_DialContext env n ctx network addr w
  = (Returns (None, Some (err ctx)),
     if exited pid w then w else logged (EvKill pid) w).
Proof.
  intros Hn Hw. unfold NetPipe_DialContext.
  rewrite select_race_cancel_first by exact Hw.
  unfold NetPipe_select, bind, load. rewrite Hn. cbn.
  destruct (exited pid w); reflexivity.
Qed.

Lemma NetPipe_DialContext_cancel_with_earlier_process_witness :
  let env := stub_env (reply_with 200) (inl 42) in
  let w := process_exits 42
             {| log := []; next_conn := 2;
                netpipes := [started_pipe "nc %h %p" 1 42]; sched := idle |} in
  NetPipe_DialContext env 0 cancelled "tcp" "host:22" w
  = (Returns (None, Some (err cancelled)),
     if exited 42 w then w else logged (EvKill 42) w).
Proof.
  exact (NetPipe_DialContext_cancel_with_earlier_process
           (stub_env (reply_with 200) (inl 42)) 0 "nc %h %p" 1 42
           cancelled "tcp" "host:22"
           (process_exits 42
              {| log := []; next_conn := 2;
                 netpipes := [started_pipe "nc %h %p" 1 42]; sched := idle |})
           eq_refl eq_refl).
Defined.

Lemma dial_won_NetPipe (n : nat) (ctx : Context) (r : Outcome DialResult * World) :
  dial_won (NetPipe_select n ctx) r = relayed r.
Proof. destruct r as [[[conn [e|]]|reason|] w]; reflexivity. Qed.

(** X13.  With a context that is never cancelled, [NetPipe.DialContext]
    does what [NetPipe.Dial] does and returns its connection, or its error
    alone: when the command fails to start, the caller gets the error and
    no connection, and the client end of the pipe stays open, out of
    reach. *)
Theorem NetPipe_DialContext_never_cancelled
  (env : Env) (n : nat) (np : NetPipe.t) (ctx : Context) (network addr : string)
  (w : World) :
  done ctx = false ->
  existsb is_CtxCancel (events (sched w)) = false ->
  existsb is_GoDial (events (sched w)) = true ->
  NetPipe_DialContext env n ctx network addr w
  = relayed (NetPipe_Dial env n network addr w) /\
  (forall e,
     nth_error (netpipes w) n = Some np ->
     Cmd_Start env (tunnel_cmd (NetPipe.Command np) (S (next_conn w))) = inr e ->
     exists w',
       NetPipe_DialContext env n ctx network addr w = (Returns (None, Some e), w') /\
       In (EvPipe (next_conn w) (S (next_conn w))) (log w') /\
       closed (next_conn w) w' = closed (next_conn w) w).
Proof.
  intros Hdone Hc Hd.
  assert (H : NetPipe_DialContext env n ctx network addr w
              = relayed (NetPipe_Dial env n network addr w)).
  { unfold NetPipe_DialContext.
    rewrite select_race_never_cancelled by assumption.
    apply dial_won_NetPipe. }
  split; [exact H|].
  intros e Hn Hs. rewrite H, (NetPipe_Dial_run env n np network addr w Hn).
  unfold Dial_error, after_Dial. rewrite Hs. cbn.
  eexists. split; [reflexivity|]. cbn. split; [auto|reflexivity].
Qed.

Lemma NetPipe_DialContext_never_cancelled_witness :
  let env := stub_env (reply_with 200) (inr (Foreign 2)) in
  let w := with_sched
             (snd (CreateProxyDialer env (proxy_config "command" "" "") (world0 idle)))
             dial_then_select in
  NetPipe_DialContext env 0 background "tcp" "host:22" w
  = relayed (NetPipe_Dial env 0 "tcp" "host:22" w) /\
  (forall e,
     nth_error (netpipes w) 0
     = Some {| NetPipe.Command := "nc %h %p"; NetPipe.Cmd := None |} ->
     Cmd_Start env (tunnel_cmd "nc %h %p" (S (next_conn w))) = inr e ->
     exists w',
       NetPipe_DialContext env 0 background "tcp" "host:22" w
       = (Returns (None, Some e), w') /\
       In (EvPipe (next_conn w) (S (next_conn w))) (log w') /\
       closed (next_conn w) w' = closed (next_conn w) w).
Proof.
  exact (NetPipe_DialContext_never_cancelled
           (stub_env (reply_with 200) (inr (Foreign 2))) 0
           {| NetPipe.Command := "nc %h %p"; NetPipe.Cmd := None |}
           background "tcp" "host:22"
           (with_sched
              (snd (CreateProxyDialer (stub_env (reply_with 200) (inr (Foreign 2)))
                      (proxy_config "command" "" "") (world0 idle)))
              dial_then_select)
           eq_refl eq_refl eq_refl).
Defined.

(** X14.  Two dials in a row on one [NetPipe] return two different client
    ends, and afterwards [n.Cmd] holds the second process only: the handle
    of the first is overwritten. *)
Theorem NetPipe_Dial_twice
  (env : Env) (n : nat) (np : NetPipe.t) (network addr : string) (w : World)
  (pid1 pid2 : nat) :
  nth_error (netpipes w) n = Some np ->
  Cmd_Start env (tunnel_cmd (NetPipe.Command np) (S (next_conn w))) = inl pid1 ->
  Cmd_Start env (tunnel_cmd (NetPipe.Command np) (S (S (S (next_conn w))))) = inl pid2 ->
  exists c1 c2 w1 w2,
    NetPipe_Dial env n network addr w = (Returns (Some c1, None), w1) /\
    NetPipe_Dial env n network addr w1 = (Returns (Some c2, None), w2) /\
    c1 <> c2 /\
    nth_error (netpipes w2) n
    = Some (started_pipe (NetPipe.Command np) (S c2) pid2).
Proof.
  intros Hn Hs1 Hs2.
  pose proof (NetPipe_Dial_run env n np network addr w Hn) as H1.
  assert (Hn1 : nth_error (netpipes (after_Dial env n np w)) n
                = Some (started_pipe (NetPipe.Command np) (S (next_conn w)) pid1)).
  { unfold after_Dial. rewrite Hs1. cbn. exact (list_set_nth _ _ _ _ Hn). }
  assert (Hc1 : next_conn (after_Dial env n np w) = S (S (next_conn w))).
  { unfold after_Dial. now rewrite Hs1. }
  pose proof (NetPipe_Dial_run env n _ network addr _ Hn1) as H2.
  exists (next_conn w), (S (S (next_conn w))), (after_Dial env n np w),
    (after_Dial env n (started_pipe (NetPipe.Command np) (S (next_conn w)) pid1)
       (after_Dial env n np w)).
  unfold Dial_error in H1, H2. rewrite Hs1 in H1. rewrite Hc1 in H2. cbn in H2.
  rewrite Hs2 in H2.
  split; [exact H1|]. split; [exact H2|]. split; [lia|].
  unfold after_Dial at 1. rewrite Hc1. cbn. rewrite Hs2. cbn.
  exact (list_set_nth _ _ _ _ Hn1).
Qed.

Lemma NetPipe_Dial_twice_witness :
  let env := stub_env (reply_with 200) (inl 42) in
  let w := snd (CreateProxyDialer env (proxy_config "command" "" "") (world0 idle)) in
  exists c1 c2 w1 w2,
    NetPipe_Dial env 0 "tcp" "host:22" w = (Returns (Some c1, None), w1) /\
    NetPipe_Dial env 0 "tcp" "host:22" w1 = (Returns (Some c2, None), w2) /\
    c1 <> c2 /\
    nth_error (netpipes w2) 0 = Some (started_pipe "nc %h %p" (S c2) 42).
Proof.
  exact (NetPipe_Dial_twice (stub_env (reply_with 200) (inl 42)) 0
           {| NetPipe.Command := "nc %h %p"; NetPipe.Cmd := None |}
           "tcp" "host:22"
           (snd (CreateProxyDialer (stub_env (reply_with 200) (inl 42))
                   (proxy_config "command" "" "") (world0 idle)))
           42 42 eq_refl eq_refl eq_refl).
Defined.

(** ** The factory: credentials and the command tunnel *)

Lemma half_credentials (p : Proxy.t) :
  Proxy.User p = "" \/ Proxy.Password p = "" ->
  nonempty (Proxy.User p) && nonempty (Proxy.Password p) = false.
Proof.
  unfold nonempty. intros [-> | ->]; cbn; [reflexivity|apply andb_false_r].
Qed.

(** X15.  A configuration with only one of user and password set is
    treated as one with neither: [CreateHttpProxyDialer] and
    [CreateProxyDialer] do for it what they do for the configuration
    without credentials, and [CreateSocks5ProxyDialer] builds the SOCKS5
    dialer with a nil [Auth], on [tcp] and the joined host and port, over
    the configured forwarder or else the direct dialer. *)
Theorem factory_half_credentials (env : Env) (p : Proxy.t) (w : World) :
  Proxy.User p = "" \/ Proxy.Password p = "" ->
  CreateHttpProxyDialer env p w = CreateHttpProxyDialer env (without_credentials p) w /\
  CreateSocks5ProxyDialer env p w
  = (proxy_SOCKS5 env "tcp" (net_JoinHostPort env (Proxy.Addr p) (Proxy.Port p))
       None
       (match Proxy.Forwarder p with
        | Some f => Some f
        | None => Some (proxy_Direct env)
        end), w) /\
  CreateProxyDialer env p w = CreateProxyDialer env (without_credentials p) w.
Proof.
  intros H. apply half_credentials in H.
  assert (Hh : CreateHttpProxyDialer env p w
               = CreateHttpProxyDialer env (without_credentials p) w).
  { unfold CreateHttpProxyDialer. rewrite H. reflexivity. }
  assert (Hs : CreateSocks5ProxyDialer env p w
               = CreateSocks5ProxyDialer env (without_credentials p) w).
  { unfold CreateSocks5ProxyDialer. rewrite H. reflexivity. }
  split; [exact Hh|]. split.
  - unfold CreateSocks5ProxyDialer. rewrite H. reflexivity.
  - unfold CreateProxyDialer, bind.
    cbn [without_credentials Proxy.Type_].
    destruct (String.eqb (Proxy.Type_ p) "http" || String.eqb (Proxy.Type_ p) "https");
      [now rewrite Hh|].
    destruct (String.eqb (Proxy.Type_ p) "socks" || String.eqb (Proxy.Type_ p) "socks5");
      [now rewrite Hs|].
    reflexivity.
Qed.

Lemma factory_half_credentials_witness :
  let env := stub_env (reply_with 200) (inl 1) in
  let p := proxy_config "socks5" "user" "" in
  CreateHttpProxyDialer env p (world0 idle)
  = CreateHttpProxyDialer env (without_credentials p) (world0 idle) /\
  CreateSocks5ProxyDialer env p (world0 idle)
  = (proxy_SOCKS5 env "tcp" (net_JoinHostPort env (Proxy.Addr p) (Proxy.Port p))
       None
       (match Proxy.Forwarder p with
        | Some f => Some f
        | None => Some (proxy_Direct env)
        end), world0 idle) /\
  CreateProxyDialer env p (world0 idle)
  = CreateProxyDialer env (without_credentials p) (world0 idle).
Proof.
  apply (factory_half_credentials (stub_env (reply_with 200) (inl 1))
           (proxy_config "socks5" "user" "") (world0 idle)).
  right; reflexivity.
Defined.

Lemma list_set_last {A} (l : list A) (x y : A) :
  list_set (l ++ [x])%list (length l) y = (l ++ [y])%list.
Proof. induction l as [|h t IH]; cbn; [reflexivity|now rewrite IH]. Qed.

(** X16.  For the type [command] the factory never fails: it allocates one
    [NetPipe] that holds the configured command and no process, leaves the
    other [NetPipe]s and the log untouched, and returns a [ContextDialer]
    whose [Dial] is [NetPipe.Dial] and whose [DialContext] is
    [NetPipe.DialContext] on that [NetPipe], not its own fallback. *)
Theorem CreateProxyDialer_command (env : Env) (p : Proxy.t) (w : World) :
  Proxy.Type_ p = "command" ->
  exists c w',
    CreateProxyDialer env p w = (Returns (c, None), w') /\
    netpipes w' = (netpipes w
                   ++ [{| NetPipe.Command := Proxy.Command p; NetPipe.Cmd := None |}])%list /\
    log w' = log w /\ next_conn w' = next_conn w /\ sched w' = sched w /\
    ContextDialer_Dial c = NetPipe_Dial env (length (netpipes w)) /\
    ContextDialer_DialContext c = NetPipe_DialContext env (length (netpipes w)).
Proof.
  intros Ht. unfold CreateProxyDialer. rewrite Ht. cbn [String.eqb Ascii.eqb orb].
  cbn.
  unfold CreateProxyCommandProxyDialer, bind, new_NetPipe, load, store; cbn.
  assert (H : nth_error (netpipes w ++ [{| NetPipe.Command := ""; NetPipe.Cmd := None |}])
                        (length (netpipes w))
              = Some {| NetPipe.Command := ""; NetPipe.Cmd := None |}).
  { rewrite nth_error_app2 by lia. now rewrite Nat.sub_diag. }
  rewrite H. cbn.
  eexists; eexists. split; [reflexivity|]. cbn.
  split; [apply list_set_last|]. repeat split.
Qed.

Lemma CreateProxyDialer_command_witness :
  let env := stub_env (reply_with 200) (inl 1) in
  let p := proxy_config "command" "" "" in
  let w := world0 idle in
  exists c w',
    CreateProxyDialer env p w = (Returns (c, None), w') /\
    netpipes w' = (netpipes w
                   ++ [{| NetPipe.Command := Proxy.Command p; NetPipe.Cmd := None |}])%list /\
    log w' = log w /\ next_conn w' = next_conn w /\ sched w' = sched w /\
    ContextDialer_Dial c = NetPipe_Dial env (length (netpipes w)) /\
    ContextDialer_DialContext c = NetPipe_DialContext env (length (netpipes w)).
Proof.
  exact (CreateProxyDialer_command (stub_env (reply_with 200) (inl 1))
           (proxy_config "command" "" "") (world0 idle) eq_refl).
Defined.

(** ** sftp: the symlink action *)

Section SymlinkFacts.
Variable env : sftp.Env.

Lemma exits_emit (e : sftp.Event) (st : sftp.State) :
  sftp.exits (sftp.trace (sftp.emit e st))
  = sftp.exits (sftp.trace st) + (if sftp.is_ExitSend e then 1 else 0).
Proof.
  unfold sftp.exits, sftp.emit; cbn.
  rewrite filter_app, length_app. cbn. now destruct (sftp.is_ExitSend e).
Qed.

Lemma symlink_targets_app (l l' : list sftp.Event) :
  sftp.symlink_targets (l ++ l')%list
  = (sftp.symlink_targets l ++ sftp.symlink_targets l')%list.
Proof.
  induction l as [|e l IH]; cbn; [reflexivity|].
  destruct e; cbn; now rewrite IH.
Qed.

(** One goroutine whose client has a path and a usable expansion: it
    signals its exit once, and when the shared target is already absolute
    it leaves it alone and links to it. *)
Lemma symlink_goroutine_returns (server : string) (client : sftp.Client)
  (st : sftp.State) (path0 : string) (rest : list string) :
  sftp.Path client = path0 :: rest ->
  (snd (sftp.ExpandRemotePath env client path0) = None ->
   fst (sftp.ExpandRemotePath env client path0) <> []) ->
  exists st',
    sftp.symlink_goroutine env server client st = (Returns tt, st') /\
    sftp.exits (sftp.trace st') = S (sftp.exits (sftp.trace st)) /\
    (sftp.IsAbs env (sftp.target st) = true ->
     sftp.target st' = sftp.target st /\
     forall t, Forall (eq t) (sftp.symlink_targets (sftp.trace st)) ->
               t = sftp.target st ->
               Forall (eq t) (sftp.symlink_targets (sftp.trace st'))).
Proof.
  intros Hp Hx. unfold sftp.symlink_goroutine. rewrite Hp.
  destruct (sftp.ExpandRemotePath env client path0) as [pList [e|]]; cbn in Hx.
  - eexists. split; [reflexivity|]. split.
    + rewrite !exits_emit. cbn. lia.
    + intros _. split; [reflexivity|]. intros t Ht _. cbn.
      rewrite <- !app_assoc, symlink_targets_app. cbn. now rewrite app_nil_r.
  - destruct pList as [|source pList]; [now destruct (Hx eq_refl)|].
    cbv zeta.
    set (src := if negb (sftp.IsAbs env source)
                then sftp.Join env (sftp.Pwd client) source else source).
    set (st0 := sftp.emit (sftp.OutputCreate server) st).
    set (st1 := if negb (sftp.IsAbs env (sftp.target st0))
                then sftp.set_target st0 (sftp.Join env (sftp.Pwd client) (sftp.target st0))
                else st0).
    assert (H1 : sftp.exits (sftp.trace st1) = sftp.exits (sftp.trace st)).
    { subst st1 st0. cbn [sftp.emit sftp.target].
      destruct (sftp.IsAbs env (sftp.target st)); unfold sftp.exits; cbn;
        rewrite filter_app, length_app; cbn; lia. }
    assert (H2 : sftp.symlink_targets (sftp.trace st1)
                 = sftp.symlink_targets (sftp.trace st)).
    { subst st1 st0. cbn [sftp.emit sftp.target].
      destruct (sftp.IsAbs env (sftp.target st)); cbn;
        rewrite symlink_targets_app; cbn; now rewrite app_nil_r. }
    assert (H3 : sftp.IsAbs env (sftp.target st) = true ->
                 sftp.target st1 = sftp.target st).
    { intros Habs. subst st1 st0. cbn. now rewrite Habs. }
    clearbody st1 src. clear st0.
    destruct (sftp.Connect_Symlink env client src
                (sftp.target (sftp.emit (sftp.Symlink server src (sftp.target st1)) st1)));
      eexists; (split; [reflexivity|]); rewrite !exits_emit; cbn; (split; [lia|]);
      intros Habs; (split; [exact (H3 Habs)|]); intros t Hall ->;
      rewrite <- ?app_assoc, symlink_targets_app, H2; cbn;
      (apply Forall_app; split; [exact Hall|]); rewrite (H3 Habs); now constructor.
Qed.
End SymlinkFacts.

Lemma run_goroutines_returns (env : sftp.Env) (l : list (string * sftp.Client))
  (st : sftp.State) :
  sftp.expandable env l ->
  exists st',
    sftp.run_goroutines env l st = (Returns tt, st') /\
    sftp.exits (sftp.trace st') = sftp.exits (sftp.trace st) + length l /\
    (sftp.IsAbs env (sftp.target st) = true ->
     sftp.target st' = sftp.target st /\
     (Forall (eq (sftp.target st)) (sftp.symlink_targets (sftp.trace st)) ->
      Forall (eq (sftp.target st)) (sftp.symlink_targets (sftp.trace st')))).
Proof.
  revert st. induction l as [|[server client] l IH]; intros st Hx; cbn.
  - exists st. split; [reflexivity|]. split; [lia|]. intros _. now split.
  - destruct (Hx server client (or_introl eq_refl)) as (path0 & rest & Hp & He).
    destruct (symlink_goroutine_returns env server client st path0 rest Hp He)
      as (st1 & Hrun & Hex & Habs).
    rewrite Hrun.
    assert (Hx' : sftp.expandable env l).
    { intros s c Hin. apply (Hx s c). now right. }
    destruct (IH st1 Hx') as (st2 & Hrun2 & Hex2 & Habs2).
    exists st2. split; [exact Hrun2|]. split; [lia|].
    intros Ha. destruct (Habs Ha) as [Ht Hall].
    rewrite <- Ht in Ha. destruct (Habs2 Ha) as [Ht2 Hall2].
    rewrite Ht in Ht2, Hall2. split; [exact Ht2|].
    intros H. apply Hall2. now apply Hall.
Qed.

(** X17.  Called with a number of arguments other than two, the action
    prints its two lines of usage and returns nil: it looks up no server
    and touches no remote path. *)
Theorem symlink_Action_wrong_arguments (env : sftp.Env) (args : list string) :
  length args <> 2 ->
  sftp.symlink_Action env args
  = (Returns None,
     [sftp.Println "Requires two arguments"; sftp.Println "symlink source target"]).
Proof.
  destruct args as [|a [|b [|c l]]]; cbn; intros H; try reflexivity.
  now destruct H.
Qed.

Lemma symlink_Action_wrong_arguments_witness :
  sftp.symlink_Action (sftp.stub_env [("web", sftp.home "/home/a")] ["link"] None None)
    ["only-one"]
  = (Returns None,
     [sftp.Println "Requires two arguments"; sftp.Println "symlink source target"]).
Proof.
  apply symlink_Action_wrong_arguments. discriminate.
Defined.

(** X18.  With two arguments, and clients that each have a path whose
    expansion is not empty unless it fails, the action returns nil whether
    or not the expansions and the remote symlinks fail (their errors are
    only printed): every goroutine signals its exit exactly once, so the
    loop that waits for one signal from each server ends. *)
Theorem symlink_Action_returns (env : sftp.Env) (source target : string) :
  sftp.expandable env (sftp.createTargetMap env source) ->
  exists tr,
    sftp.symlink_Action env [source; target] = (Returns None, tr) /\
    sftp.exits tr = length (sftp.createTargetMap env source).
Proof.
  intros Hx. unfold sftp.symlink_Action.
  destruct (run_goroutines_returns env _ {| sftp.trace := []; sftp.target := target |} Hx)
    as (st' & Hrun & Hex & _).
  rewrite Hrun. cbn in Hex. rewrite Hex, Nat.leb_refl.
  exists (sftp.trace st'). now split.
Qed.

Lemma stub_expandable (targetmap l : list (string * sftp.Client))
  (link_err : option error) :
  Forall (fun sc => sftp.Path (snd sc) <> []) l ->
  sftp.expandable (sftp.stub_env targetmap ["link"] None link_err) l.
Proof.
  intros H server client Hin.
  rewrite Forall_forall in H. specialize (H _ Hin). cbn in H.
  destruct (sftp.Path client) as [|path0 rest]; [now destruct H|].
  exists path0, rest. split; [reflexivity|]. discriminate.
Defined.

Lemma symlink_Action_returns_witness :
  let targetmap := [("web", sftp.home "/home/a"); ("db", sftp.home "/home/b")] in
  exists tr,
    sftp.symlink_Action (sftp.stub_env targetmap ["link"] None (Some (Foreign 9)))
      ["src"; "dst"] = (Returns None, tr) /\
    sftp.exits tr = 2.
Proof.
  apply (symlink_Action_returns
           (sftp.stub_env [("web", sftp.home "/home/a"); ("db", sftp.home "/home/b")]
              ["link"] None (Some (Foreign 9))) "src" "dst").
  apply stub_expandable. repeat constructor; discriminate.
Defined.





(** X20.  A client without a path, or a path whose expansion is empty
    though it reports no error, makes its goroutine panic on the index
    [0]: the output of that server has been created, nothing has been
    linked and no exit has been signalled. *)
Theorem symlink_Action_index_panic
  (env : sftp.Env) (source target server : string) (client : sftp.Client)
  (rest : list (string * sftp.Client)) :
  sftp.createTargetMap env source = (server, client) :: rest ->
  sftp.Path client = [] \/
  (exists path0 paths,
     sftp.Path client = path0 :: paths /\
     sftp.ExpandRemotePath env client path0 = ([], None)) ->
  sftp.symlink_Action env [source; target]
  = (Panics sftp.index_out_of_range, [sftp.OutputCreate server]).
Proof.
  intros Hmap H. unfold sftp.symlink_Action. rewrite Hmap.
  cbn [sftp.run_goroutines]. unfold sftp.symlink_goroutine.
  destruct H as [Hp|(path0 & paths & Hp & Hx)].
  - now rewrite Hp.
  - now rewrite Hp, Hx.
Qed.

Lemma symlink_Action_index_panic_witness :
  sftp.symlink_Action (sftp.stub_env [("web", sftp.home "/home/a")] [] None None)
    ["src"; "dst"]
  = (Panics sftp.index_out_of_range, [sftp.OutputCreate "web"]).
Proof.
  apply (symlink_Action_index_panic
           (sftp.stub_env [("web", sftp.home "/home/a")] [] None None)
           "src" "dst" "web" (sftp.home "/home/a") [] eq_refl).
  right. exists "link", []. split; reflexivity.
Defined.

(** ** newHttpProxy *)

(** For a URL that is not nil, [newHttpProxy] never fails: it returns
    a dialer without a [DialContext] method whose [Dial] is that of an
    [httpProxy] bound to the host of the URL and to the given forwarder,
    with authentication exactly when the URL carries user information, and
    then with its user name and password. *)
Lemma newHttpProxy_auth (env : Env) (uri : url.URL) (forward : Dialer) :
  exists s d,
    newHttpProxy env (Some uri) forward = Returns (Some d, None) /\
    Dial d = httpProxy_Dial env s /\
    DialContext d = None /\
    httpProxy.host s = url.Host uri /\
    httpProxy.forward s = forward /\
    (httpProxy.haveAuth s = true <-> url.User uri <> None) /\
    (forall u, url.User uri = Some u ->
       httpProxy.username s = url.username u /\
       httpProxy.password s = url.password u).
Proof.
  unfold newHttpProxy. destruct (url.User uri) as [u|].
  - eexists; eexists. split; [reflexivity|]. cbn.
    do 4 (split; [reflexivity|]). split.
    + split; [discriminate|reflexivity].
    + intros u' [= <-]. now split.
  - eexists; eexists. split; [reflexivity|]. cbn.
    do 4 (split; [reflexivity|]). split.
    + split; [discriminate|intros H; now destruct H].
    + discriminate.
Qed.
